(** * Google Tools: Gmail and Calendar access for a tool-calling host

    A shallow embedding of [google_tools.py] (version 0.0.3): the credential
    manager [get_google_creds], the Gmail operations [get_user_emails],
    [get_email_content] and [gmail_create_draft], the calendar aggregation
    [get_user_events], and the helpers [get_calendar_ids], [get_cal_evts],
    [get_header_value], [parse_email_body] and [decode_mail_body].

    Python values that come back from the vendor API are JSON trees; Python
    exceptions are values of [exn]; code that talks to the outside world (the
    token file, the clock, the logger, the vendor client, the host's status
    callback) is written in a state-and-exception monad over [World]. *)

From Stdlib Require Import String Ascii List ZArith Bool Lia.
From Stdlib Require Import Sorting.Sorted Sorting.Permutation.
From Stdlib Require Import Numbers.DecimalString.
Import ListNotations.
Local Open Scope string_scope.

(* ================================================================= *)
(** ** Python values *)

(** The result of [json.loads]: dictionaries keep their insertion order, so an
    object is an association list. Numbers are restricted to integers. *)
#[local] Set Warnings "-register-all".
Inductive json : Type :=
| JNull
| JBool (b : bool)
| JNum (n : Z)
| JStr (s : string)
| JArr (items : list json)
| JObj (fields : list (string * json)).
#[local] Set Warnings "+register-all".

(** Exception classes the program can meet. [BinasciiError] is the
    [binascii.Error] raised by the base64 codec, a subclass of [ValueError];
    [FileNotFoundError] is a subclass of [OSError]; every class here derives
    from [Exception]. *)
Inductive exn_class : Type :=
| ValueError
| BinasciiError
| KeyError
| TypeError
| IndexError
| AttributeError
| FileNotFoundError
| HttpError
| OtherException (name : string).

(** An exception instance: its class and [str(err)]. *)
Record exn : Type := mkExn { exn_cls : exn_class; exn_msg : string }.

Inductive result (A : Type) : Type :=
| Ret (a : A)
| Raise (e : exn).
Arguments Ret {A} a.
Arguments Raise {A} e.

Definition is_ValueError (e : exn) : bool :=
  match exn_cls e with ValueError | BinasciiError => true | _ => false end.

Definition is_KeyError (e : exn) : bool :=
  match exn_cls e with KeyError => true | _ => false end.

Definition is_HttpError (e : exn) : bool :=
  match exn_cls e with HttpError => true | _ => false end.

Definition type_name (v : json) : string :=
  match v with
  | JNull => "NoneType"
  | JBool _ => "bool"
  | JNum _ => "int"
  | JStr _ => "str"
  | JArr _ => "list"
  | JObj _ => "dict"
  end.

Fixpoint lookup (key : string) (fields : list (string * json)) : option json :=
  match fields with
  | [] => None
  | (k, v) :: rest => if String.eqb k key then Some v else lookup key rest
  end.

(** [str(KeyError(key))] is the [repr] of the key. *)
Definition key_error (key : string) : exn :=
  mkExn KeyError ("'" ++ key ++ "'").

(** [v[key]] for a string key. *)
Definition py_getitem (v : json) (key : string) : result json :=
  match v with
  | JObj fields =>
      match lookup key fields with
      | Some x => Ret x
      | None => Raise (key_error key)
      end
  | JArr _ =>
      Raise (mkExn TypeError "list indices must be integers or slices, not str")
  | JStr _ =>
      Raise (mkExn TypeError "string indices must be integers, not 'str'")
  | _ =>
      Raise (mkExn TypeError ("'" ++ type_name v ++ "' object is not subscriptable"))
  end.

(** [v.get(key, default)]; only dictionaries have the method. *)
Definition py_get (v : json) (key : string) (default : json) : result json :=
  match v with
  | JObj fields =>
      match lookup key fields with
      | Some x => Ret x
      | None => Ret default
      end
  | _ =>
      Raise (mkExn AttributeError
               ("'" ++ type_name v ++ "' object has no attribute 'get'"))
  end.

(** Truth value of [v] in a condition. *)
Definition py_truthy (v : json) : bool :=
  match v with
  | JNull => false
  | JBool b => b
  | JNum n => negb (n =? 0)%Z
  | JStr s => negb (String.eqb s "")
  | JArr items => match items with [] => false | _ => true end
  | JObj fields => match fields with [] => false | _ => true end
  end.

(** [v == s] for a string literal [s]: true only for that very string. *)
Definition py_eq_str (v : json) (s : string) : bool :=
  match v with
  | JStr t => String.eqb t s
  | _ => false
  end.

(** A byte of the form 10xxxxxx continues a UTF-8 encoded character. *)
Definition is_continuation (c : ascii) : bool :=
  let n := nat_of_ascii c in (128 <=? n)%nat && (n <? 192)%nat.

(** The characters of a (UTF-8 encoded) string, one string per character. *)
Fixpoint chars_of (s : string) : list string :=
  match s with
  | EmptyString => []
  | String c rest =>
      match chars_of rest with
      | [] => [String c EmptyString]
      | hd :: tl =>
          match rest with
          | String c' _ =>
              if is_continuation c' then String c hd :: tl
              else String c EmptyString :: hd :: tl
          | EmptyString => [String c EmptyString]
          end
      end
  end.

(** The items visited by [for x in v]: the elements of a list, the keys of a
    dictionary, the characters of a string. *)
Definition py_iter (v : json) : result (list json) :=
  match v with
  | JArr items => Ret items
  | JObj fields => Ret (map (fun kv => JStr (fst kv)) fields)
  | JStr s => Ret (map JStr (chars_of s))
  | _ => Raise (mkExn TypeError ("'" ++ type_name v ++ "' object is not iterable"))
  end.

Definition is_substring (needle hay : string) : bool :=
  match index 0 needle hay with
  | Some _ => true
  | None => false
  end.

(** [needle in v] for a string [needle]. *)
Definition py_contains (needle : string) (v : json) : result bool :=
  match v with
  | JArr items => Ret (existsb (fun x => py_eq_str x needle) items)
  | JObj fields => Ret (existsb (fun kv => String.eqb (fst kv) needle) fields)
  | JStr s => Ret (is_substring needle s)
  | _ =>
      Raise (mkExn TypeError
               ("argument of type '" ++ type_name v ++ "' is not iterable"))
  end.

(** [str(n)] for an integer. *)
Definition str_of_Z (n : Z) : string := NilZero.string_of_int (Z.to_int n).

(** [str(b)] for a boolean. *)
Definition str_of_bool (b : bool) : string := if b then "True" else "False".

(** Functions of the Python standard library that the program calls. The
    program is verified for every implementation of this interface;
    [Ref.lib] below is one to run examples with. *)
Record PyLib : Type := {
  (** [repr(v)], needed for lists and dictionaries *)
  py_repr : json -> string;
  (** [base64.b64decode(data)]: the decoded bytes, a [binascii.Error] on
      malformed input, a [TypeError] when [data] is not a string *)
  b64decode : json -> result string;
  (** [bytes.decode("utf-8", errors="replace")] *)
  decode_utf8_replace : string -> string;
  (** [html.escape(s)] *)
  html_escape : string -> string;
  (** [EmailMessage()] with [set_content(body)], [To] and [Subject] assigned,
      then [as_bytes()] *)
  email_as_bytes : string -> string -> string -> result string;
  (** [base64.urlsafe_b64encode(b).decode()] *)
  urlsafe_b64encode : string -> string
}.

(** [str(v)], which is also what [str.format] and f-strings insert. *)
Definition py_str (L : PyLib) (v : json) : string :=
  match v with
  | JNull => "None"
  | JBool b => str_of_bool b
  | JNum n => str_of_Z n
  | JStr s => s
  | JArr _ | JObj _ => py_repr L v
  end.

(* ================================================================= *)
(** ** The world the program runs in *)

(** A vendor credential object, as far as the program looks at it. *)
Record Credentials : Type := {
  cred_token : string;
  cred_valid : bool;
  cred_expired : bool;
  cred_refresh_token : option string
}.

(** The program tests [creds.refresh_token] for truth: [None] and the empty
    string are false. *)
Definition has_refresh_token (c : Credentials) : bool :=
  match cred_refresh_token c with
  | Some t => negb (String.eqb t "")
  | None => false
  end.

(** What the program does to the outside world, in order. *)
Inductive event : Type :=
| EvStatus (description : string) (done : bool)
| EvClock
| EvPathExists
| EvLoadToken
| EvRefresh
| EvConsentFlow (client_secrets : string)
| EvOpenToken
| EvWriteToken (content : string)
| EvRemoveToken
| EvBuild (api : string) (creds : option Credentials)
| EvCalendarList
| EvEventsList (calendar_id : json) (max_results : Z) (time_min : string)
| EvMessagesList (max_results : Z) (label_ids : list string)
| EvMessagesGet (message_id : json)
| EvDraftsCreate (raw : string).

Inductive log_level : Type := DEBUG | INFO | ERROR.

(** [token_file] is the content of [token.json], [None] when the file does not
    exist; [trace] is the history of external interactions, oldest first;
    [log] is what went to the logger. *)
Record World : Type := mkWorld {
  token_file : option string;
  trace : list event;
  log : list (log_level * string)
}.

(** The vendor client library and the clock. Each operation sees the world at
    the time of the call, history included, so it may answer differently
    from one call to the next. *)
Record Vendor : Type := {
  utcnow_isoformat : World -> string;
  from_authorized_user_file : World -> string -> result Credentials;
  refresh : World -> Credentials -> result Credentials;
  run_consent_flow : World -> string -> result Credentials;
  to_json : World -> Credentials -> result string;
  build : World -> string -> option Credentials -> result unit;
  calendarList_list : World -> result json;
  events_list : World -> json -> Z -> string -> result json;
  messages_list : World -> Z -> list string -> result json;
  messages_get : World -> json -> result json;
  drafts_create : World -> string -> result json
}.

(** The host's status callback: it is awaited with a description and a
    [done] flag, and may itself fail. *)
Definition Emitter : Type := World -> string -> bool -> result unit.

Record Valves : Type := {
  default_calendar_entries : Z;
  default_email_entries : Z;
  path_to_credentials : string
}.

Definition default_valves : Valves :=
  {| default_calendar_entries := 10;
     default_email_entries := 10;
     path_to_credentials := "credentials.json" |}.

(* ================================================================= *)
(** ** State and exceptions *)

Definition M (A : Type) : Type := World -> result A * World.

Definition ret {A} (a : A) : M A := fun w => (Ret a, w).

Definition raise {A} (e : exn) : M A := fun w => (Raise e, w).

Definition bind {A B} (m : M A) (k : A -> M B) : M B :=
  fun w =>
    match m w with
    | (Ret a, w') => k a w'
    | (Raise e, w') => (Raise e, w')
    end.

Notation "x <- m ;; k" := (bind m (fun x => k))
  (at level 61, m at next level, right associativity).
Notation "m ;;; k" := (bind m (fun _ => k))
  (at level 61, right associativity).

(** A pure computation that may raise. *)
Definition lift {A} (r : result A) : M A := fun w => (r, w).

(** [try: body except cls as err: handler(err)] for the exceptions that
    [catches] selects; the others pass through. *)
Definition try_except {A} (body : M A) (catches : exn -> bool)
    (handler : exn -> M A) : M A :=
  fun w =>
    match body w with
    | (Ret a, w') => (Ret a, w')
    | (Raise e, w') => if catches e then handler e w' else (Raise e, w')
    end.

Definition record (ev : event) (w : World) : World :=
  mkWorld (token_file w) (trace w ++ [ev])%list (log w).

(** An external call: it enters the trace, then the outside answers. *)
Definition call {A} (ev : event) (answer : World -> result A) : M A :=
  fun w => let w' := record ev w in (answer w', w').

Definition logger (level : log_level) (msg : string) : M unit :=
  fun w => (Ret tt, mkWorld (token_file w) (trace w) (log w ++ [(level, msg)])%list).

(** [os.path.exists("token.json")] *)
Definition path_exists : M bool :=
  fun w =>
    let w' := record EvPathExists w in
    (Ret (match token_file w' with Some _ => true | None => false end), w').

(** [open("token.json", "w")]: creates the file or truncates it. The working
    directory is taken to be writable: opening does not fail here. *)
Definition open_token_w : M unit :=
  fun w =>
    (Ret tt, mkWorld (Some "") (trace w ++ [EvOpenToken])%list (log w)).

(** [token.write(content)] and the close at the end of the [with] block,
    on a disk that takes the content. *)
Definition write_token (content : string) : M unit :=
  fun w =>
    (Ret tt, mkWorld (Some content) (trace w ++ [EvWriteToken content])%list (log w)).

(** [os.remove("token.json")]: in a writable directory it fails only when
    there is no such file. *)
Definition os_remove_token : M unit :=
  fun w =>
    let w' := record EvRemoveToken w in
    match token_file w' with
    | Some _ => (Ret tt, mkWorld None (trace w') (log w'))
    | None =>
        (Raise (mkExn FileNotFoundError
                  "[Errno 2] No such file or directory: 'token.json'"), w')
    end.

(** [await __event_emitter__({"type": "status", "data": {...}})]. Calling
    [None] raises a [TypeError] and nothing reaches the host. *)
Definition await_emitter (emitter : option Emitter) (description : string)
    (done : bool) : M unit :=
  match emitter with
  | None => raise (mkExn TypeError "'NoneType' object is not callable")
  | Some f => call (EvStatus description done) (fun w => f w description done)
  end.

(** Sequencing of pure computations that may raise. *)
Definition bind_r {A B} (r : result A) (k : A -> result B) : result B :=
  match r with
  | Ret a => k a
  | Raise e => Raise e
  end.

Notation "x <~ r ;; k" := (bind_r r (fun x => k))
  (at level 61, r at next level, right associativity).

(* ================================================================= *)
(** ** Output templates *)

Definition NL : string := String "010"%char EmptyString.

(** [MAIN_FORMAT.format(description=..., output=...)] *)
Definition MAIN_FORMAT_format (description output : string) : string :=
  NL ++ "<interpreter_output>" ++ NL ++
  "    <description>" ++ NL ++
  "        " ++ description ++ NL ++
  "    </description>" ++ NL ++
  "    <output>" ++ NL ++
  "        " ++ output ++ NL ++
  "    </output>" ++ NL ++
  "</interpreter_output>" ++ NL.

(** The values substituted into [MAIL_FORMAT], after [str]. *)
Record MailFields : Type := {
  mf_id : string;
  mf_date : string;
  mf_sender : string;
  mf_subject : string;
  mf_snippet : string;
  mf_unread : string;
  mf_email_body : string
}.

(** [MAIL_FORMAT.format(...)] *)
Definition MAIL_FORMAT_format (m : MailFields) : string :=
  NL ++ "<email>" ++ NL ++
  "    <message_id>" ++ mf_id m ++ "</message_id>" ++ NL ++
  "    <date>" ++ mf_date m ++ "</date>" ++ NL ++
  "    <from>" ++ mf_sender m ++ "</from>" ++ NL ++
  "    <subject>" ++ mf_subject m ++ "</subject>" ++ NL ++
  "    <snippet>" ++ mf_snippet m ++ "</snippet>" ++ NL ++
  "    <unread>" ++ mf_unread m ++ "</unread>" ++ NL ++
  "    <email_body>" ++ mf_email_body m ++ "</email_body>" ++ NL ++
  "</email>" ++ NL.

(** [CALENDAR_FORMAT.format(start=..., summary=..., calendar=...)] *)
Definition CALENDAR_FORMAT_format (start summary calendar : string) : string :=
  NL ++ "<event>" ++ NL ++
  "    <start>" ++ start ++ "</start>" ++ NL ++
  "    <summary>" ++ summary ++ "</summary>" ++ NL ++
  "    <calendar>" ++ calendar ++ "</calendar>" ++ NL ++
  "</event>" ++ NL.

(* ================================================================= *)
(** ** Pure helpers of the module *)

(** The first header whose ["name"] is exactly [name]: the generator passed
    to [next] in [get_header_value]. *)
Fixpoint first_named (fields : list json) (name : string) : result (option json) :=
  match fields with
  | [] => Ret None
  | field :: rest =>
      n <~ py_getitem field "name" ;;
      if py_eq_str n name then Ret (Some field) else first_named rest name
  end.

Definition get_header_value (payload : json) (name : string) : result json :=
  fields <~ py_iter payload ;;
  found <~ first_named fields name ;;
  match found with
  | Some field =>
      if py_truthy field then py_getitem field "value" else Ret (JStr "")
  | None => Ret (JStr "")
  end.

(** An event as [get_cal_evts] builds it: a dictionary with exactly the keys
    ["start"], ["summary"] and ["calendar"]. *)
Record CalEvent : Type := {
  ce_start : json;
  ce_summary : json;
  ce_calendar : json
}.

(** One turn of the loop of [get_cal_evts]. In
    [event["organizer"].get("displayName", event["organizer"]["email"])] the
    method [get] is looked up first, which fails on anything but a dictionary,
    and the fallback is evaluated before [get] is called, whether it is used
    or not; likewise for the start. *)
Definition cal_evt_of (event : json) : result CalEvent :=
  start <~ py_getitem event "start" ;;
  date <~ py_get start "date" JNull ;;
  start_value <~ py_get start "dateTime" date ;;
  summary <~ py_getitem event "summary" ;;
  organizer <~ py_getitem event "organizer" ;;
  _ <~ py_get organizer "displayName" JNull ;;
  email <~ py_getitem organizer "email" ;;
  calendar <~ py_get organizer "displayName" email ;;
  Ret {| ce_start := start_value; ce_summary := summary; ce_calendar := calendar |}.

Fixpoint cal_evts_loop (events : list json) (out : list CalEvent)
  : result (list CalEvent) :=
  match events with
  | [] => Ret out
  | event :: rest =>
      ev <~ cal_evt_of event ;;
      cal_evts_loop rest (out ++ [ev])%list
  end.

(** The sort key [x["start"]] when it is a string. *)
Definition start_string (ev : CalEvent) : option string :=
  match ce_start ev with
  | JStr s => Some s
  | _ => None
  end.

Definition start_key (ev : CalEvent) : string :=
  match start_string ev with
  | Some s => s
  | None => ""
  end.

Definition is_Some {A} (o : option A) : bool :=
  match o with Some _ => true | None => false end.

Fixpoint insert_event (ev : CalEvent) (sorted : list CalEvent) : list CalEvent :=
  match sorted with
  | [] => [ev]
  | x :: rest =>
      if String.leb (start_key ev) (start_key x) then ev :: x :: rest
      else x :: insert_event ev rest
  end.

(** Ascending and stable, like [list.sort]: an event goes in front of the
    later events with an equal key. *)
Fixpoint sort_stable (evs : list CalEvent) : list CalEvent :=
  match evs with
  | [] => []
  | ev :: rest => insert_event ev (sort_stable rest)
  end.

(** [event_list.sort(key=lambda x: x["start"])]. Strings are ordered by code
    point. With fewer than two events nothing is compared. The start values
    the vendor sends are strings; [None] (neither [dateTime] nor [date]) cannot
    be ordered against anything, and any other kind of value is treated the
    same way here. *)
Definition sort_by_start (evs : list CalEvent) : result (list CalEvent) :=
  match evs with
  | [] | [_] => Ret evs
  | _ =>
      if forallb (fun ev => is_Some (start_string ev)) evs
      then Ret (sort_stable evs)
      else Raise (mkExn TypeError "'<' not supported between instances")
  end.

(* ================================================================= *)
(** ** The program *)

Section Program.

Variable L : PyLib.
Variable V : Vendor.
Variable valves : Valves.

(** *** Email bodies *)

Definition decode_mail_body (data : json) : result string :=
  raw <~ b64decode L data ;;
  Ret (html_escape L (decode_utf8_replace L raw)).

Definition is_text_part (mime_type : json) : bool :=
  py_eq_str mime_type "text/html" || py_eq_str mime_type "text/plain".

Definition is_multipart (mime_type : json) : bool :=
  py_eq_str mime_type "multipart/alternative" || py_eq_str mime_type "multipart/mixed".

(** The [for part in payload["parts"]] loop: [Some body] when it returns from
    inside the loop, [None] when it runs to the end. *)
Fixpoint scan_parts (parts : list json) : result (option string) :=
  match parts with
  | [] => Ret None
  | part :: rest =>
      mime_type <~ py_getitem part "mimeType" ;;
      if is_text_part mime_type then
        body <~ py_getitem part "body" ;;
        data <~ py_getitem body "data" ;;
        text <~ decode_mail_body data ;;
        Ret (Some text)
      else scan_parts rest
  end.

(** The body of the [try] block of [parse_email_body]. *)
Definition parse_email_body_try (payload : json) : result string :=
  mime_type <~ py_getitem payload "mimeType" ;;
  found <~ (if is_multipart mime_type then
              parts <~ py_getitem payload "parts" ;;
              items <~ py_iter parts ;;
              scan_parts items
            else Ret None) ;;
  match found with
  | Some text => Ret text
  | None =>
      body <~ py_getitem payload "body" ;;
      data <~ py_getitem body "data" ;;
      decode_mail_body data
  end.

(** The three [except] clauses, tried in order. *)
Definition parse_email_body (payload : json) : result string :=
  match parse_email_body_try payload with
  | Ret text => Ret text
  | Raise err =>
      if is_ValueError err then Ret ("Error decoding email body: " ++ exn_msg err)
      else if is_KeyError err then Ret ("Error parsing email body: " ++ exn_msg err)
      else Ret ("Error: " ++ exn_msg err)
  end.

(** *** Credentials *)

(** [if os.path.exists("token.json"): creds = Credentials.from_authorized_user_file(...)] *)
Definition load_cached : M (option Credentials) :=
  present <- path_exists ;;
  if (present : bool) then
    creds <- call EvLoadToken
               (fun w => match token_file w with
                         | Some content => from_authorized_user_file V w content
                         | None =>
                             Raise (mkExn FileNotFoundError
                                      "[Errno 2] No such file or directory: 'token.json'")
                         end) ;;
    ret (Some creds)
  else ret None.

(** [not creds or not creds.valid] *)
Definition needs_renewal (creds : option Credentials) : bool :=
  match creds with
  | Some c => negb (cred_valid c)
  | None => true
  end.

(** [creds and creds.expired and creds.refresh_token] *)
Definition can_refresh (creds : option Credentials) : bool :=
  match creds with
  | Some c => cred_expired c && has_refresh_token c
  | None => false
  end.

(** Refresh in place, or run the consent flow with the client-secret file. *)
Definition renew (creds : option Credentials) : M Credentials :=
  match creds with
  | Some c =>
      if can_refresh creds then call EvRefresh (fun w => refresh V w c)
      else call (EvConsentFlow (path_to_credentials valves))
             (fun w => run_consent_flow V w (path_to_credentials valves))
  | None =>
      call (EvConsentFlow (path_to_credentials valves))
        (fun w => run_consent_flow V w (path_to_credentials valves))
  end.

(** [with open("token.json", "w") as token: token.write(creds.to_json())] *)
Definition persist (c : Credentials) : M unit :=
  open_token_w ;;;
  content <- (fun w => (to_json V w c, w)) ;;
  write_token content.

(** How the [try] block of [get_google_creds] ends: the local variable
    [creds] at that point, and the exception if one was raised. *)
Record attempt : Type := {
  att_creds : option Credentials;
  att_error : option exn
}.

Definition acquire : World -> attempt * World :=
  fun w0 =>
    match load_cached w0 with
    | (Raise e, w1) => ({| att_creds := None; att_error := Some e |}, w1)
    | (Ret creds, w1) =>
        if needs_renewal creds then
          match renew creds w1 with
          | (Raise e, w2) => ({| att_creds := creds; att_error := Some e |}, w2)
          | (Ret c, w2) =>
              match persist c w2 with
              | (Raise e, w3) => ({| att_creds := Some c; att_error := Some e |}, w3)
              | (Ret _, w3) => ({| att_creds := Some c; att_error := None |}, w3)
              end
          end
        else ({| att_creds := creds; att_error := None |}, w1)
    end.

(** [get_google_creds] calls itself only with [retry=False], so the number of
    retries left, 1 for [retry=True] and 0 for [retry=False], is what the
    recursion goes down on. *)
Fixpoint get_google_creds_from (retries : nat) : M (option Credentials) :=
  fun w =>
    let (a, w1) := acquire w in
    match att_error a with
    | None => (Ret (att_creds a), w1)
    | Some error =>
        (logger ERROR ("Error getting credentials: " ++ exn_msg error) ;;;
         match retries with
         | S r =>
             logger INFO "Retrying to get credentials" ;;;
             os_remove_token ;;;
             get_google_creds_from r
         | O => ret (att_creds a)
         end) w1
    end.

Definition get_google_creds (retry : bool) : M (option Credentials) :=
  get_google_creds_from (if retry then 1 else 0)%nat.

(** *** Calendar *)

Definition get_current_time : M string :=
  call EvClock (fun w => Ret (utcnow_isoformat V w ++ "Z")).

Fixpoint calendar_ids_loop (cals : list json) (out : list json) : result (list json) :=
  match cals with
  | [] => Ret out
  | cal :: rest =>
      id <~ py_getitem cal "id" ;;
      calendar_ids_loop rest (out ++ [id])%list
  end.

Definition get_calendar_ids : M (list json) :=
  calendars <- call EvCalendarList (calendarList_list V) ;;
  cals <- lift (py_get calendars "items" (JArr [])) ;;
  items <- lift (py_iter cals) ;;
  out <- lift (calendar_ids_loop items []) ;;
  logger DEBUG ("Got following calendars " ++ py_str L (JArr out)) ;;;
  ret out.

Definition get_cal_evts (calendar_id : json) (number_of_events : Z)
    (from_time : string) : M (list CalEvent) :=
  events_result <- call (EvEventsList calendar_id number_of_events from_time)
                     (fun w => events_list V w calendar_id number_of_events from_time) ;;
  events <- lift (py_get events_result "items" (JArr [])) ;;
  items <- lift (py_iter events) ;;
  lift (cal_evts_loop items []).

(** [for calendar_id in calendar_ids: event_list += get_cal_evts(...)] *)
Fixpoint fetch_events (calendar_ids : list json) (count : Z) (from_time : string)
    (event_list : list CalEvent) : M (list CalEvent) :=
  match calendar_ids with
  | [] => ret event_list
  | calendar_id :: rest =>
      events <- get_cal_evts calendar_id count from_time ;;
      fetch_events rest count from_time (event_list ++ events)%list
  end.

Definition format_event (ev : CalEvent) : string :=
  CALENDAR_FORMAT_format (py_str L (ce_start ev)) (py_str L (ce_summary ev))
    (py_str L (ce_calendar ev)).

(** [for i in range(count): out += CALENDAR_FORMAT.format(... event_list[i] ...)],
    with [todo] turns left, the next one at index [i]. *)
Fixpoint format_events_loop (event_list : list CalEvent) (i todo : nat)
    (out : string) : result string :=
  match todo with
  | O => Ret out
  | S todo' =>
      match nth_error event_list i with
      | Some ev => format_events_loop event_list (S i) todo' (out ++ format_event ev)
      | None => Raise (mkExn IndexError "list index out of range")
      end
  end.

Definition effective_count (count default : Z) : Z :=
  if (count =? -1)%Z then default else count.

(** The [try] block of [get_user_events]. *)
Definition user_events_try (count : Z) : M string :=
  creds <- get_google_creds true ;;
  call (EvBuild "calendar" creds) (fun w => build V w "calendar" creds) ;;;
  from_time <- get_current_time ;;
  calendar_ids <- get_calendar_ids ;;
  event_list <- fetch_events calendar_ids count from_time [] ;;
  event_list <- lift (sort_by_start event_list) ;;
  lift (format_events_loop event_list 0 (Z.to_nat count) "").

Definition get_user_events (count : Z) (emitter : option Emitter) : M string :=
  let count := effective_count count (default_calendar_entries valves) in
  await_emitter emitter "Fetching user calendar entries..." false ;;;
  now <- get_current_time ;;
  let description :=
    "The requested " ++ str_of_Z count ++
    " upcoming events from the user's calendar. Today is " ++ now in
  logger DEBUG description ;;;
  out <- try_except (user_events_try count) is_HttpError
           (fun error => ret ("Error fetching calendar data: " ++ exn_msg error)) ;;
  let results := MAIN_FORMAT_format description ("<events>" ++ out ++ "</events>") in
  logger DEBUG results ;;;
  await_emitter emitter "Fetched user calendar entries!" true ;;;
  ret results.

(** *** Gmail *)

(** The arguments of [MAIL_FORMAT.format], evaluated in the order written. *)
Definition mail_fields (msg mail : json) (email_body : string) : result MailFields :=
  payload <~ py_getitem mail "payload" ;;
  headers <~ py_getitem payload "headers" ;;
  date <~ get_header_value headers "Date" ;;
  sender <~ get_header_value headers "From" ;;
  subject <~ get_header_value headers "Subject" ;;
  snippet <~ py_getitem mail "snippet" ;;
  label_ids <~ py_getitem mail "labelIds" ;;
  unread <~ py_contains "UNREAD" label_ids ;;
  id <~ py_getitem msg "id" ;;
  Ret {| mf_id := py_str L id;
         mf_date := py_str L date;
         mf_sender := py_str L sender;
         mf_subject := py_str L subject;
         mf_snippet := py_str L snippet;
         mf_unread := str_of_bool unread;
         mf_email_body := email_body |}.

(** [for msg in messages: ... out += MAIL_FORMAT.format(...)] *)
Fixpoint emails_loop (messages : list json) (out : string) : M string :=
  match messages with
  | [] => ret out
  | msg :: rest =>
      id <- lift (py_getitem msg "id") ;;
      mail <- call (EvMessagesGet id) (fun w => messages_get V w id) ;;
      payload <- lift (py_getitem mail "payload") ;;
      email_body <- lift (parse_email_body payload) ;;
      fields <- lift (mail_fields msg mail email_body) ;;
      emails_loop rest (out ++ MAIL_FORMAT_format fields)
  end.

(** The [try] block of [get_user_emails]. *)
Definition user_emails_try (count : Z) (label_id : string) : M string :=
  creds <- get_google_creds true ;;
  call (EvBuild "gmail" creds) (fun w => build V w "gmail" creds) ;;;
  results <- call (EvMessagesList count [label_id])
               (fun w => messages_list V w count [label_id]) ;;
  messages <- lift (py_get results "messages" (JArr [])) ;;
  if py_truthy messages then
    items <- lift (py_iter messages) ;;
    emails_loop items ""
  else ret "No messages found.".

Definition get_user_emails (count : Z) (label_id : string)
    (emitter : option Emitter) : M string :=
  let count := effective_count count (default_email_entries valves) in
  await_emitter emitter "Fetching user emails..." false ;;;
  now <- get_current_time ;;
  let description :=
    "The requested  " ++ str_of_Z count ++
    " emails from the user's inbox that have the label " ++ label_id ++
    ". Today is " ++ now in
  logger DEBUG description ;;;
  out <- try_except (user_emails_try count label_id) is_HttpError
           (fun error => ret ("An error occurred: " ++ exn_msg error)) ;;
  let result := MAIN_FORMAT_format description ("<emails>" ++ out ++ "</emails>") in
  logger DEBUG result ;;;
  await_emitter emitter "Fetched user emails!" true ;;;
  ret result.

(** The [try] block of [get_email_content]. *)
Definition email_content_try (message_id : string) : M string :=
  creds <- get_google_creds true ;;
  call (EvBuild "gmail" creds) (fun w => build V w "gmail" creds) ;;;
  mail <- call (EvMessagesGet (JStr message_id))
            (fun w => messages_get V w (JStr message_id)) ;;
  payload <- lift (py_getitem mail "payload") ;;
  lift (parse_email_body payload).

Definition get_email_content (message_id : string) (emitter : option Emitter)
  : M string :=
  await_emitter emitter "Fetching email content..." false ;;;
  now <- get_current_time ;;
  let description :=
    "Contents of the email message for message_id: " ++ message_id ++
    ". Today is " ++ now in
  logger DEBUG description ;;;
  email_body <- try_except (email_content_try message_id) is_HttpError
                  (fun error => ret ("An error occurred: " ++ exn_msg error)) ;;
  let result :=
    MAIN_FORMAT_format description ("<![CDATA[" ++ email_body ++ "]]>") in
  logger DEBUG result ;;;
  await_emitter emitter "Fetched email content!" true ;;;
  ret result.

(** The [try] block of [gmail_create_draft]. *)
Definition create_draft_try (to subject body : string) : M string :=
  creds <- get_google_creds true ;;
  call (EvBuild "gmail" creds) (fun w => build V w "gmail" creds) ;;;
  message <- lift (email_as_bytes L body to subject) ;;
  let encoded_message := urlsafe_b64encode L message in
  call (EvDraftsCreate encoded_message)
    (fun w => drafts_create V w encoded_message) ;;;
  ret "Draft message created!".

Definition gmail_create_draft (to subject body : string)
    (emitter : option Emitter) : M string :=
  logger DEBUG "Creating draft message..." ;;;
  await_emitter emitter "Creating email draft..." false ;;;
  out <- try_except (create_draft_try to subject body) is_HttpError
           (fun error => ret ("An error occurred: " ++ exn_msg error)) ;;
  logger DEBUG out ;;;
  await_emitter emitter "Email draft created!" true ;;;
  ret out.

End Program.

(* ================================================================= *)
(** ** A reference library and a scripted vendor

    [Ref.lib] implements [PyLib] and [Ref.vendor] implements [Vendor] for a
    small scripted account, so that the program can be run. The properties
    below hold for every library and vendor; these two serve the examples. *)

Module Ref.

(** [repr] of a string that needs no escaping. *)
Definition repr_str (s : string) : string := "'" ++ s ++ "'".

Definition join_with (sep : string) (l : list string) : string :=
  match l with
  | [] => ""
  | x :: rest => fold_left (fun acc y => acc ++ sep ++ y) rest x
  end.

Fixpoint repr (v : json) : string :=
  match v with
  | JNull => "None"
  | JBool b => str_of_bool b
  | JNum n => str_of_Z n
  | JStr s => repr_str s
  | JArr items => "[" ++ join_with ", " (map repr items) ++ "]"
  | JObj fields =>
      "{" ++ join_with ", "
               (map (fun kv => repr_str (fst kv) ++ ": " ++ repr (snd kv)) fields)
          ++ "}"
  end.

Definition code (c : ascii) : nat := nat_of_ascii c.

Definition between (lo hi : nat) (c : ascii) : bool :=
  (lo <=? code c)%nat && (code c <=? hi)%nat.

(** The value of a character of the standard base64 alphabet. *)
Definition b64_value (c : ascii) : option nat :=
  if between 65 90 c then Some (code c - 65)%nat
  else if between 97 122 c then Some (code c - 71)%nat
  else if between 48 57 c then Some (code c + 4)%nat
  else if (code c =? 43)%nat then Some 62%nat
  else if (code c =? 47)%nat then Some 63%nat
  else None.

Definition byte (n : nat) : ascii := ascii_of_nat (n mod 256).

(** The lenient decoder behind [base64.b64decode]: characters outside the
    alphabet are skipped, [quad_pos] is the position in the current group of
    four, [leftchar] the bits not yet written, [pads] the padding seen. *)
Fixpoint a2b_base64 (s : string) (quad_pos leftchar pads : nat) : result string :=
  match s with
  | EmptyString =>
      match quad_pos with
      | O => Ret ""
      | 1%nat => Raise (mkExn BinasciiError "Invalid base64-encoded string")
      | _ => Raise (mkExn BinasciiError "Incorrect padding")
      end
  | String c rest =>
      if (code c =? 61)%nat then
        if (2 <=? quad_pos)%nat then
          if (4 <=? quad_pos + S pads)%nat then Ret ""
          else a2b_base64 rest quad_pos leftchar (S pads)
        else a2b_base64 rest quad_pos leftchar pads
      else
        match b64_value c with
        | None => a2b_base64 rest quad_pos leftchar pads
        | Some v =>
            match quad_pos with
            | O => a2b_base64 rest 1 v 0
            | 1%nat =>
                out <~ a2b_base64 rest 2 (v mod 16) 0 ;;
                Ret (String (byte (leftchar * 4 + v / 16)) out)
            | 2%nat =>
                out <~ a2b_base64 rest 3 (v mod 4) 0 ;;
                Ret (String (byte (leftchar * 16 + v / 4)) out)
            | _ =>
                out <~ a2b_base64 rest 0 0 0 ;;
                Ret (String (byte (leftchar * 64 + v)) out)
            end
        end
  end.

Fixpoint all_ascii (s : string) : bool :=
  match s with
  | EmptyString => true
  | String c rest => (code c <? 128)%nat && all_ascii rest
  end.

Definition b64decode (data : json) : result string :=
  match data with
  | JStr s =>
      if all_ascii s then a2b_base64 s 0 0 0
      else Raise (mkExn ValueError
                    "string argument should contain only ASCII characters")
  | _ =>
      Raise (mkExn TypeError
               ("argument should be a bytes-like object or ASCII string, not '"
                ++ type_name data ++ "'"))
  end.

(** U+FFFD in UTF-8. *)
Definition REPLACEMENT : string :=
  String (byte 239) (String (byte 191) (String (byte 189) EmptyString)).

(** Well-formed UTF-8 sequences pass; each maximal ill-formed piece becomes
    U+FFFD. *)
Fixpoint decode_utf8_replace (s : string) : string :=
  match s with
  | EmptyString => EmptyString
  | String c0 r0 =>
      if (code c0 <? 128)%nat then String c0 (decode_utf8_replace r0)
      else if between 194 223 c0 then
        match r0 with
        | String c1 r1 =>
            if between 128 191 c1
            then String c0 (String c1 (decode_utf8_replace r1))
            else REPLACEMENT ++ decode_utf8_replace r0
        | EmptyString => REPLACEMENT
        end
      else if between 224 239 c0 then
        let lo := if (code c0 =? 224)%nat then 160%nat else 128%nat in
        let hi := if (code c0 =? 237)%nat then 159%nat else 191%nat in
        match r0 with
        | String c1 r1 =>
            if between lo hi c1 then
              match r1 with
              | String c2 r2 =>
                  if between 128 191 c2
                  then String c0 (String c1 (String c2 (decode_utf8_replace r2)))
                  else REPLACEMENT ++ decode_utf8_replace r1
              | EmptyString => REPLACEMENT
              end
            else REPLACEMENT ++ decode_utf8_replace r0
        | EmptyString => REPLACEMENT
        end
      else if between 240 244 c0 then
        let lo := if (code c0 =? 240)%nat then 144%nat else 128%nat in
        let hi := if (code c0 =? 244)%nat then 143%nat else 191%nat in
        match r0 with
        | String c1 r1 =>
            if between lo hi c1 then
              match r1 with
              | String c2 r2 =>
                  if between 128 191 c2 then
                    match r2 with
                    | String c3 r3 =>
                        if between 128 191 c3
                        then String c0 (String c1 (String c2 (String c3
                                 (decode_utf8_replace r3))))
                        else REPLACEMENT ++ decode_utf8_replace r2
                    | EmptyString => REPLACEMENT
                    end
                  else REPLACEMENT ++ decode_utf8_replace r1
              | EmptyString => REPLACEMENT
              end
            else REPLACEMENT ++ decode_utf8_replace r0
        | EmptyString => REPLACEMENT
        end
      else REPLACEMENT ++ decode_utf8_replace r0
  end.

(** [html.escape] with [quote=True]. *)
Fixpoint html_escape (s : string) : string :=
  match s with
  | EmptyString => EmptyString
  | String c rest =>
      (if (code c =? 38)%nat then "&amp;"
       else if (code c =? 60)%nat then "&lt;"
       else if (code c =? 62)%nat then "&gt;"
       else if (code c =? 34)%nat then "&quot;"
       else if (code c =? 39)%nat then "&#x27;"
       else String c EmptyString) ++ html_escape rest
  end.

Definition b64url_char (v : nat) : ascii :=
  if (v <? 26)%nat then byte (65 + v)
  else if (v <? 52)%nat then byte (71 + v)
  else if (v <? 62)%nat then byte (v - 4)
  else if (v =? 62)%nat then "-"%char
  else "_"%char.

(** [base64.urlsafe_b64encode]: three bytes to four characters, padded
    with [=]. *)
Fixpoint urlsafe_b64encode (s : string) : string :=
  match s with
  | EmptyString => EmptyString
  | String a EmptyString =>
      String (b64url_char (code a / 4))
        (String (b64url_char (code a mod 4 * 16)) "==")
  | String a (String b EmptyString) =>
      String (b64url_char (code a / 4))
        (String (b64url_char (code a mod 4 * 16 + code b / 16))
           (String (b64url_char (code b mod 16 * 4)) "="))
  | String a (String b (String c rest)) =>
      String (b64url_char (code a / 4))
        (String (b64url_char (code a mod 4 * 16 + code b / 16))
           (String (b64url_char (code b mod 16 * 4 + code c / 64))
              (String (b64url_char (code c mod 64)) (urlsafe_b64encode rest))))
  end.

Fixpoint has_line_break (s : string) : bool :=
  match s with
  | EmptyString => false
  | String c rest =>
      (code c =? 10)%nat || (code c =? 13)%nat || has_line_break rest
  end.

Fixpoint ends_with_newline (s : string) : bool :=
  match s with
  | EmptyString => false
  | String c EmptyString => (code c =? 10)%nat
  | String _ rest => ends_with_newline rest
  end.

Definition DQ : string := String (byte 34) EmptyString.

(** The serialized message for ASCII text with short lines: the content
    headers, [To], [Subject], an empty line, the body closed by a newline. A
    line break in a header value is refused. *)
Definition email_as_bytes (body to subject : string) : result string :=
  if has_line_break to || has_line_break subject then
    Raise (mkExn ValueError
             "Header values may not contain linefeed or carriage return characters")
  else
    Ret ("Content-Type: text/plain; charset=" ++ DQ ++ "utf-8" ++ DQ ++ NL ++
         "Content-Transfer-Encoding: 7bit" ++ NL ++
         "MIME-Version: 1.0" ++ NL ++
         "To: " ++ to ++ NL ++
         "Subject: " ++ subject ++ NL ++
         NL ++
         (if ends_with_newline body then body else body ++ NL)).

Definition lib : PyLib :=
  Build_PyLib repr b64decode decode_utf8_replace html_escape email_as_bytes
    urlsafe_b64encode.

(** A scripted account: which client-secret file exists, whether the token
    endpoint answers, whether the API quota is used up, the calendars with
    their upcoming events in start order, and the messages of the mailbox. *)
Record Account : Type := {
  client_secrets_file : string;
  token_endpoint_up : bool;
  quota_left : bool;
  calendars : list (string * list json);
  mailbox : list json
}.

Definition fresh_creds : Credentials :=
  {| cred_token := "fresh"; cred_valid := true; cred_expired := false;
     cred_refresh_token := Some "refresh" |}.

Definition expired_creds : Credentials :=
  {| cred_token := "expired"; cred_valid := false; cred_expired := true;
     cred_refresh_token := Some "refresh" |}.

(** A token file holds ["fresh"] or ["expired"]; anything else is corrupt. *)
Definition parse_token (content : string) : result Credentials :=
  if String.eqb content "fresh" then Ret fresh_creds
  else if String.eqb content "expired" then Ret expired_creds
  else Raise (mkExn ValueError "Expecting value: line 1 column 1 (char 0)").

Definition http_error (msg : string) : exn := mkExn HttpError msg.

Definition rate_limited : exn := http_error "<HttpError 429 rateLimitExceeded>".

(** An API request: refused when the quota is used up. *)
Definition request {A} (a : Account) (answer : result A) : result A :=
  if quota_left a then answer else Raise rate_limited.

Fixpoint events_of (cals : list (string * list json)) (id : json) : option (list json) :=
  match cals with
  | [] => None
  | (name, events) :: rest =>
      if py_eq_str id name then Some events else events_of rest id
  end.

Definition has_label (label : string) (mail : json) : bool :=
  match py_getitem mail "labelIds" with
  | Ret labels =>
      match py_contains label labels with
      | Ret b => b
      | Raise _ => false
      end
  | Raise _ => false
  end.

Definition id_only (mail : json) : json :=
  match py_getitem mail "id" with
  | Ret id => JObj [("id", id)]
  | Raise _ => JObj []
  end.

Fixpoint find_mail (mails : list json) (id : json) : option json :=
  match mails with
  | [] => None
  | mail :: rest =>
      match id, py_getitem mail "id" with
      | JStr wanted, Ret (JStr have) =>
          if String.eqb wanted have then Some mail else find_mail rest id
      | _, _ => find_mail rest id
      end
  end.

Definition vendor (a : Account) : Vendor :=
  {| utcnow_isoformat := fun _ => "2025-05-28T10:59:07.000000";
     from_authorized_user_file := fun _ content => parse_token content;
     refresh := fun _ _ =>
       if token_endpoint_up a then Ret fresh_creds
       else Raise (mkExn (OtherException "RefreshError") "invalid_grant");
     run_consent_flow := fun _ path =>
       if String.eqb path (client_secrets_file a) then Ret fresh_creds
       else Raise (mkExn FileNotFoundError
                     ("[Errno 2] No such file or directory: '" ++ path ++ "'"));
     to_json := fun _ c => Ret (cred_token c);
     build := fun _ _ _ => Ret tt;
     calendarList_list := fun _ =>
       request a
         (Ret (JObj [("items",
                      JArr (map (fun c => JObj [("id", JStr (fst c))]) (calendars a)))]));
     events_list := fun _ id max_results _ =>
       request a
         match events_of (calendars a) id with
         | Some events =>
             Ret (JObj [("items", JArr (firstn (Z.to_nat max_results) events))])
         | None => Raise (http_error "<HttpError 404 Not Found>")
         end;
     messages_list := fun _ max_results labels =>
       request a
         match firstn (Z.to_nat max_results)
                 (filter (fun m => forallb (fun l => has_label l m) labels) (mailbox a)) with
         | [] => Ret (JObj [("resultSizeEstimate", JNum 0)])
         | found => Ret (JObj [("messages", JArr (map id_only found))])
         end;
     messages_get := fun _ id =>
       request a
         match find_mail (mailbox a) id with
         | Some mail => Ret mail
         | None => Raise (http_error "<HttpError 404 Not Found>")
         end;
     drafts_create := fun _ raw =>
       request a
         (Ret (JObj [("id", JStr "r1"); ("message", JObj [("id", JStr "m1")])])) |}.

(** A world with nothing in the trace or the log. *)
Definition world (token : option string) : World := mkWorld token [] [].

(** A host callback that accepts every status. *)
Definition emitter : Emitter := fun _ _ _ => Ret tt.

End Ref.

(* ================================================================= *)
(** ** The calendar data model

    A [CalendarEvent] of the data model has a start, a summary and a calendar
    label. [EventView] is what the program reads of one event resource of the
    vendor; [listed] is the event the data model makes of it. *)

Record EventView : Type := {
  view_dateTime : option string;
  view_date : option string;
  view_summary : string;
  view_displayName : option string;
  view_email : string
}.

(** [e] is an event resource with these fields: [start.dateTime] and
    [start.date] as far as present, [summary], [organizer.displayName] if
    present, and [organizer.email]. *)
Definition event_view (e : json) (v : EventView) : Prop :=
  exists start organizer,
    py_getitem e "start" = Ret (JObj start) /\
    lookup "dateTime" start = option_map JStr (view_dateTime v) /\
    lookup "date" start = option_map JStr (view_date v) /\
    py_getitem e "summary" = Ret (JStr (view_summary v)) /\
    py_getitem e "organizer" = Ret (JObj organizer) /\
    lookup "displayName" organizer = option_map JStr (view_displayName v) /\
    lookup "email" organizer = Some (JStr (view_email v)).

(** A timed event has [dateTime], an all-day event has [date]. *)
Definition has_start (v : EventView) : bool :=
  is_Some (view_dateTime v) || is_Some (view_date v).

(** The start: [dateTime] if present, else the all-day [date]. *)
Definition start_of (v : EventView) : string :=
  match view_dateTime v, view_date v with
  | Some t, _ => t
  | None, Some d => d
  | None, None => ""
  end.

(** The calendar label: the organizer's display name if present, else the
    organizer's email. *)
Definition calendar_label (v : EventView) : string :=
  match view_displayName v with
  | Some name => name
  | None => view_email v
  end.

Definition listed (v : EventView) : CalEvent :=
  {| ce_start := JStr (start_of v);
     ce_summary := JStr (view_summary v);
     ce_calendar := JStr (calendar_label v) |}.

(** One calendar: its id and the event resources the vendor answers with,
    each with its view. *)
Record Feed : Type := {
  feed_id : json;
  feed_items : list (json * EventView)
}.

Definition feed_events (f : Feed) : list CalEvent :=
  map (fun iv => listed (snd iv)) (feed_items f).

(* ================================================================= *)
(** ** What the properties speak of *)

(** A header entry of a message payload, ["name"] and ["value"] both
    strings, seen as a pair. *)
Definition header_of (field : json) (h : string * string) : Prop :=
  py_getitem field "name" = Ret (JStr (fst h)) /\
  py_getitem field "value" = Ret (JStr (snd h)).

(** The value of the first header called exactly [name], the empty string
    when there is none. *)
Fixpoint header_lookup (hs : list (string * string)) (name : string) : string :=
  match hs with
  | [] => ""
  | (n, v) :: rest => if String.eqb n name then v else header_lookup rest name
  end.

(** A part the scan passes over: it has a MIME type, and not a text one. *)
Definition not_text (p : json) : Prop :=
  exists m, py_getitem p "mimeType" = Ret m /\ is_text_part m = false.


(** The text that stands in for the body when the [try] block raises [err]. *)
Definition error_text (err : exn) : string :=
  (if is_ValueError err then "Error decoding email body: "
   else if is_KeyError err then "Error parsing email body: "
   else "Error: ") ++ exn_msg err.

(** The events that ask whether [token.json] exists, and those that remove
    it. *)
Definition is_path_exists (ev : event) : bool :=
  match ev with EvPathExists => true | _ => false end.

Definition is_remove (ev : event) : bool :=
  match ev with EvRemoveToken => true | _ => false end.

(** Every acquisition attempt starts by asking whether [token.json] exists, so
    these events count the attempts. *)
Definition attempts (tr : list event) : nat := length (filter is_path_exists tr).

(** The number of times [os.remove] was called. *)
Definition removals (tr : list event) : nat := length (filter is_remove tr).

(** The world after the error of a failed attempt has been logged. *)
Definition log_error (error : exn) (w : World) : World :=
  mkWorld (token_file w) (trace w)
    (log w ++ [(ERROR, ("Error getting credentials: " ++ exn_msg error)%string)])%list.

(** The world in which the retry starts: error and retry logged, token file
    removed. *)
Definition after_removal (error : exn) (w : World) : World :=
  mkWorld None (trace w ++ [EvRemoveToken])%list
    ((log w ++ [(ERROR, ("Error getting credentials: " ++ exn_msg error)%string)])
       ++ [(INFO, "Retrying to get credentials")])%list.

(** What [os.remove] raises when there is no [token.json]. *)
Definition token_missing : exn :=
  mkExn FileNotFoundError "[Errno 2] No such file or directory: 'token.json'".

(** What awaiting [None] raises. *)
Definition not_callable : exn :=
  mkExn TypeError "'NoneType' object is not callable".

(** The texts of a list, one after the other. *)
Fixpoint concat_all (l : list string) : string :=
  match l with
  | [] => ""
  | x :: rest => x ++ concat_all rest
  end.

(** What [get_user_emails] puts between [<emails>] and [</emails>]. *)
Definition emails_output (out : string) : Prop :=
  out = "No messages found." \/
  (exists msg, out = "An error occurred: " ++ msg) \/
  (exists ms, out = concat_all (map MAIL_FORMAT_format ms)).

(** What [get_user_events] puts between [<events>] and [</events>]. *)
Definition events_output (L : PyLib) (out : string) : Prop :=
  (exists msg, out = "Error fetching calendar data: " ++ msg) \/
  (exists evs, out = concat_all (map (format_event L) evs)).

(** What [gmail_create_draft] returns: a bare sentence, no envelope. *)
Definition draft_output (out : string) : Prop :=
  out = "Draft message created!" \/
  (exists msg, out = "An error occurred: " ++ msg).



(** An event resource paired with its view, the start present. *)
Definition well_viewed (iv : json * EventView) : Prop :=
  event_view (fst iv) (snd iv) /\ has_start (snd iv) = true.

(** The events of all calendars, one calendar after the other. *)
Definition merged (feeds : list Feed) : list CalEvent :=
  flat_map feed_events feeds.

(** The [events().list] requests of a trace: calendar id and [maxResults]. *)
Definition events_requests (tr : list event) : list (json * Z) :=
  flat_map (fun ev => match ev with
                      | EvEventsList id n _ => [(id, n)]
                      | _ => []
                      end) tr.

(** What indexing past the end of a list raises. *)
Definition index_error : exn := mkExn IndexError "list index out of range".

(** The events that go to the network for credentials: a token refresh or
    the consent flow. *)
Definition is_network (ev : event) : bool :=
  match ev with
  | EvRefresh | EvConsentFlow _ => true
  | _ => false
  end.

Definition network_calls (tr : list event) : nat := length (filter is_network tr).

(** The status messages a trace sent to the host: description and [done]. *)
Definition statuses (tr : list event) : list (string * bool) :=
  flat_map (fun ev => match ev with
                      | EvStatus description done => [(description, done)]
                      | _ => []
                      end) tr.

(** A computation that sends no status, however it ends. *)
Definition silent {A} (m : M A) : Prop :=
  forall w r w', m w = (r, w') -> statuses (trace w') = statuses (trace w).

(** The requests sent to the Gmail API. *)
Definition is_gmail_request (ev : event) : bool :=
  match ev with
  | EvMessagesList _ _ | EvMessagesGet _ | EvDraftsCreate _ => true
  | _ => false
  end.

(** The Gmail requests of a trace, in the order they were sent. *)
Definition gmail_requests (tr : list event) : list event :=
  filter is_gmail_request tr.

(** The text [parse_email_body] gives for a payload: the body, or the
    message of the error met on the way to it. *)
Definition body_text (L : PyLib) (payload : json) : string :=
  match parse_email_body L payload with
  | Ret text => text
  | Raise err => exn_msg err
  end.

(** One message of a listing: the entry of the list response, the id it
    carries, the message the vendor returns for that id, and what the
    message holds. *)
Record Message : Type := {
  msg_stub : json;
  msg_id : json;
  msg_mail : json;
  msg_payload : json;
  msg_fields : list json;
  msg_headers : list (string * string);
  msg_snippet : json;
  msg_labels : list json
}.

(** The vendor returns [msg_mail m] for the id of the entry, and it has the
    keys the listing reads. *)
Definition delivered (V : Vendor) (m : Message) : Prop :=
  py_getitem (msg_stub m) "id" = Ret (msg_id m) /\
  (forall w, messages_get V w (msg_id m) = Ret (msg_mail m)) /\
  py_getitem (msg_mail m) "payload" = Ret (msg_payload m) /\
  py_getitem (msg_payload m) "headers" = Ret (JArr (msg_fields m)) /\
  Forall2 header_of (msg_fields m) (msg_headers m) /\
  py_getitem (msg_mail m) "snippet" = Ret (msg_snippet m) /\
  py_getitem (msg_mail m) "labelIds" = Ret (JArr (msg_labels m)).

(** The [<email>] record of a message. *)
Definition email_record (L : PyLib) (m : Message) : MailFields :=
  {| mf_id := py_str L (msg_id m);
     mf_date := header_lookup (msg_headers m) "Date";
     mf_sender := header_lookup (msg_headers m) "From";
     mf_subject := header_lookup (msg_headers m) "Subject";
     mf_snippet := py_str L (msg_snippet m);
     mf_unread :=
       str_of_bool (existsb (fun x => py_eq_str x "UNREAD") (msg_labels m));
     mf_email_body := body_text L (msg_payload m) |}.

(** What goes between [<emails>] and [</emails>]. *)
Definition emails_text (L : PyLib) (ms : list Message) : string :=
  match ms with
  | [] => "No messages found."
  | _ => concat_all (map (fun m => MAIL_FORMAT_format (email_record L m)) ms)
  end.

(* ================================================================= *)
(** ** Sample data for the examples *)

Module Sample.

Definition header (name value : string) : json :=
  JObj [("name", JStr name); ("value", JStr value)].

(** Headers with no ["Subject"]: the third one is spelled in lower case. *)
Definition headers : list json :=
  [header "Date" "Wed, 28 May 2025 10:59:07 +0000";
   header "From" "ann@example.org";
   header "subject" "lower case"].

Definition header_pairs : list (string * string) :=
  [("Date", "Wed, 28 May 2025 10:59:07 +0000");
   ("From", "ann@example.org");
   ("subject", "lower case")].

(** A body part of an email: a MIME type and base64 data. *)
Definition part (mime_type data : string) : json :=
  JObj [("mimeType", JStr mime_type);
        ("body", JObj [("size", JNum 5); ("data", JStr data)])].



(** Base64 data of an impossible length. *)
Definition bad_base64 : json := part "text/plain" "a".

(** A [multipart/mixed] container whose only child is itself a container:
    no text child, and no data of its own. *)
Definition no_data : json :=
  JObj [("mimeType", JStr "multipart/mixed");
        ("body", JObj [("size", JNum 0)]);
        ("parts", JArr [JObj [("mimeType", JStr "multipart/alternative");
                              ("body", JObj [("size", JNum 0)])]])].

Definition event (start summary calendar : string) : json :=
  JObj [("summary", JStr summary);
        ("organizer",
         JObj [("email", JStr (calendar ++ "@group.calendar.google.com"));
               ("displayName", JStr calendar)]);
        ("start", JObj [("dateTime", JStr start)])].

(** An all-day event of a calendar without a display name. *)
Definition all_day_event (date summary email : string) : json :=
  JObj [("summary", JStr summary);
        ("organizer", JObj [("email", JStr email)]);
        ("start", JObj [("date", JStr date)])].

(** Calendar A with events one and three hours from now, calendar B with an
    event two hours from now; one email in the inbox. *)
Definition account : Ref.Account :=
  {| Ref.client_secrets_file := "credentials.json";
     Ref.token_endpoint_up := true;
     Ref.quota_left := true;
     Ref.calendars :=
       [("A", [event "2025-05-28T11:59:07Z" "Stand-up" "A";
               event "2025-05-28T13:59:07Z" "Review" "A"]);
        ("B", [event "2025-05-28T12:59:07Z" "Lunch" "B"])];
     Ref.mailbox :=
       [JObj [("id", JStr "194d1f624c165d4b");
              ("labelIds", JArr [JStr "INBOX"; JStr "UNREAD"]);
              ("snippet", JStr "hello");
              ("payload",
               JObj [("mimeType", JStr "multipart/alternative");
                     ("headers", JArr headers);
                     ("body", JObj [("size", JNum 0)]);
                     ("parts", JArr [part "text/plain" "aGVsbG8=";
                                     part "text/html" "PGI+aGk8L2I+"])])]] |}.

(** The same account on a machine where the client-secret file is not at the
    configured path. *)
Definition no_client_secrets : Ref.Account :=
  {| Ref.client_secrets_file := "/etc/google/credentials.json";
     Ref.token_endpoint_up := true;
     Ref.quota_left := true;
     Ref.calendars := Ref.calendars account;
     Ref.mailbox := Ref.mailbox account |}.

(** The same account once the API quota is used up. *)
Definition out_of_quota : Ref.Account :=
  {| Ref.client_secrets_file := "credentials.json";
     Ref.token_endpoint_up := true;
     Ref.quota_left := false;
     Ref.calendars := Ref.calendars account;
     Ref.mailbox := Ref.mailbox account |}.

(** What a corrupt token file makes the vendor library raise. *)
Definition corrupt_token : exn :=
  mkExn ValueError "Expecting value: line 1 column 1 (char 0)".

(** What the consent flow raises without its client-secret file. *)
Definition no_secrets_file : exn :=
  mkExn FileNotFoundError "[Errno 2] No such file or directory: 'credentials.json'".

Definition view (start summary calendar : string) : EventView :=
  {| view_dateTime := Some start;
     view_date := None;
     view_summary := summary;
     view_displayName := Some calendar;
     view_email := calendar ++ "@group.calendar.google.com" |}.

(** The calendars of [account] with the views of their events. *)
Definition feeds : list Feed :=
  [{| feed_id := JStr "A";
      feed_items :=
        [(event "2025-05-28T11:59:07Z" "Stand-up" "A",
          view "2025-05-28T11:59:07Z" "Stand-up" "A");
         (event "2025-05-28T13:59:07Z" "Review" "A",
          view "2025-05-28T13:59:07Z" "Review" "A")] |};
   {| feed_id := JStr "B";
      feed_items :=
        [(event "2025-05-28T12:59:07Z" "Lunch" "B",
          view "2025-05-28T12:59:07Z" "Lunch" "B")] |}].

(** A message with an attachment: [multipart/mixed] around a
    [multipart/alternative], which holds the text parts, and a PDF. *)
Definition with_attachment : json :=
  JObj [("mimeType", JStr "multipart/mixed");
        ("body", JObj [("size", JNum 0)]);
        ("parts",
         JArr [JObj [("mimeType", JStr "multipart/alternative");
                     ("body", JObj [("size", JNum 0)]);
                     ("parts", JArr [part "text/plain" "aGVsbG8=";
                                     part "text/html" "PGI+aGk8L2I+"])];
               JObj [("mimeType", JStr "application/pdf");
                     ("filename", JStr "agenda.pdf");
                     ("body", JObj [("attachmentId", JStr "a1");
                                    ("size", JNum 1024)])]])].

(** The fields of an event saved without a title: no ["summary"]. *)
Definition untitled_fields : list (string * json) :=
  [("organizer", JObj [("email", JStr "ann@example.org")]);
   ("start", JObj [("dateTime", JStr "2025-05-28T15:59:07Z")])].

(** An account whose calendar C holds a titled and an untitled event. *)
Definition untitled_account : Ref.Account :=
  {| Ref.client_secrets_file := "credentials.json";
     Ref.token_endpoint_up := true;
     Ref.quota_left := true;
     Ref.calendars :=
       [("C", [event "2025-05-28T11:59:07Z" "Stand-up" "C";
               JObj untitled_fields])];
     Ref.mailbox := [] |}.


(** The message of [account]'s inbox. *)
Definition message : Message :=
  {| msg_stub := JObj [("id", JStr "194d1f624c165d4b")];
     msg_id := JStr "194d1f624c165d4b";
     msg_mail := nth 0 (Ref.mailbox account) JNull;
     msg_payload :=
       JObj [("mimeType", JStr "multipart/alternative");
             ("headers", JArr headers);
             ("body", JObj [("size", JNum 0)]);
             ("parts", JArr [part "text/plain" "aGVsbG8=";
                             part "text/html" "PGI+aGk8L2I+"])];
     msg_fields := headers;
     msg_headers := header_pairs;
     msg_snippet := JStr "hello";
     msg_labels := [JStr "INBOX"; JStr "UNREAD"] |}.

End Sample.

(* ================================================================= *)
(** ** Properties: sequencing *)

Lemma bind_r_Ret {A B} (r : result A) (k : A -> result B) (b : B) :
  bind_r r k = Ret b -> exists a, r = Ret a /\ k a = Ret b.
Proof.
  destruct r as [a | e]; simpl; intros H; [eauto | discriminate].
Qed.

Lemma bind_Ret {A B} (m : M A) (k : A -> M B) (w w' : World) (b : B) :
  bind m k w = (Ret b, w') ->
  exists a w1, m w = (Ret a, w1) /\ k a w1 = (Ret b, w').
Proof.
  unfold bind. destruct (m w) as [[a | e] w1]; intros H.
  - eauto.
  - inversion H.
Qed.

Lemma bind_step {A B} (m : M A) (k : A -> M B) (w w1 : World) (a : A) :
  m w = (Ret a, w1) -> bind m k w = k a w1.
Proof. unfold bind. intros ->. reflexivity. Qed.

Lemma bind_raise {A B} (m : M A) (k : A -> M B) (w w1 : World) (e : exn) :
  m w = (Raise e, w1) -> bind m k w = (Raise e, w1).
Proof. unfold bind. intros ->. reflexivity. Qed.

Lemma try_except_Ret {A} (body : M A) (catches : exn -> bool)
    (handler : exn -> M A) (w w' : World) (a : A) :
  try_except body catches handler w = (Ret a, w') ->
  body w = (Ret a, w') \/
  exists e w1, body w = (Raise e, w1) /\ catches e = true /\ handler e w1 = (Ret a, w').
Proof.
  unfold try_except. destruct (body w) as [[x | e] w1]; intros H.
  - left. exact H.
  - destruct (catches e) eqn:C; [right; eauto | inversion H].
Qed.

Lemma lift_Ret {A} (r : result A) (w w' : World) (a : A) :
  lift r w = (Ret a, w') -> r = Ret a /\ w' = w.
Proof. unfold lift. intros H. inversion H. auto. Qed.

(** A mapping from a non-empty dictionary is what [v[key]] can succeed on, and
    such a value is true in a condition. *)
Lemma py_getitem_truthy (v x : json) (key : string) :
  py_getitem v key = Ret x -> py_truthy v = true.
Proof.
  destruct v; simpl; try discriminate.
  destruct fields as [| kv rest]; simpl; [discriminate | reflexivity].
Qed.

(* ================================================================= *)
(** ** Properties: header extraction *)

Lemma get_header_value_lookup (fields : list json) (hs : list (string * string))
    (name : string) :
  Forall2 header_of fields hs ->
  get_header_value (JArr fields) name = Ret (JStr (header_lookup hs name)).
Proof.
  unfold get_header_value. simpl.
  induction 1 as [| field [n v] fields hs [Hn Hv] _ IH]; simpl.
  - reflexivity.
  - simpl in Hn, Hv. rewrite Hn. simpl.
    destruct (String.eqb n name) eqn:E; simpl.
    + rewrite (py_getitem_truthy _ _ _ Hn). exact Hv.
    + exact IH.
Qed.

Lemma header_lookup_absent (hs : list (string * string)) (name : string) :
  (forall h, In h hs -> fst h <> name) -> header_lookup hs name = "".
Proof.
  induction hs as [| [n v] hs IH]; simpl; intros H.
  - reflexivity.
  - destruct (String.eqb_spec n name) as [-> | _].
    + exfalso. apply (H (name, v)); auto.
    + apply IH. intros h Hin. apply H. auto.
Qed.

Lemma header_lookup_first (pre post : list (string * string)) (name v : string) :
  (forall h, In h pre -> fst h <> name) ->
  header_lookup (pre ++ (name, v) :: post)%list name = v.
Proof.
  induction pre as [| [n x] pre IH]; simpl; intros H.
  - rewrite String.eqb_refl. reflexivity.
  - destruct (String.eqb_spec n name) as [-> | _].
    + exfalso. apply (H (name, x)); auto.
    + apply IH. intros h Hin. apply H. auto.
Qed.

Lemma mail_fields_headers (L : PyLib) (fields : list json)
    (hs : list (string * string)) (msg mail payload : json) (body : string)
    (m : MailFields) :
  Forall2 header_of fields hs ->
  py_getitem mail "payload" = Ret payload ->
  py_getitem payload "headers" = Ret (JArr fields) ->
  mail_fields L msg mail body = Ret m ->
  mf_date m = header_lookup hs "Date" /\
  mf_sender m = header_lookup hs "From" /\
  mf_subject m = header_lookup hs "Subject".
Proof.
  intros Hwf Hp Hh Hm. unfold mail_fields in Hm.
  rewrite Hp in Hm. simpl in Hm. rewrite Hh in Hm. simpl in Hm.
  rewrite !(get_header_value_lookup _ _ _ Hwf) in Hm. simpl in Hm.
  repeat (apply bind_r_Ret in Hm; destruct Hm as [? [_ Hm]]).
  inversion Hm. simpl. auto.
Qed.

(** C7. [get_header_value] returns the value of the first header whose name is
    exactly the requested one, compared character by character with case
    significant, and the empty string, not an error, when no header has that
    name; so do the date, sender and subject fields of a listed email. *)
Theorem get_header_value_exact_or_empty (L : PyLib) (fields : list json)
    (hs : list (string * string)) (name : string) :
  Forall2 header_of fields hs ->
  (forall pre v post,
      hs = (pre ++ (name, v) :: post)%list ->
      (forall h, In h pre -> fst h <> name) ->
      get_header_value (JArr fields) name = Ret (JStr v)) /\
  ((forall h, In h hs -> fst h <> name) ->
   get_header_value (JArr fields) name = Ret (JStr "")) /\
  (forall msg mail payload body m,
      py_getitem mail "payload" = Ret payload ->
      py_getitem payload "headers" = Ret (JArr fields) ->
      mail_fields L msg mail body = Ret m ->
      mf_date m = header_lookup hs "Date" /\
      mf_sender m = header_lookup hs "From" /\
      mf_subject m = header_lookup hs "Subject").
Proof.
  intros Hwf. split; [| split].
  - intros pre v post -> Hpre.
    rewrite (get_header_value_lookup _ _ _ Hwf).
    now rewrite header_lookup_first.
  - intros Habs.
    rewrite (get_header_value_lookup _ _ _ Hwf).
    now rewrite header_lookup_absent.
  - intros msg mail payload body m Hp Hh Hm.
    exact (mail_fields_headers L fields hs msg mail payload body m Hwf Hp Hh Hm).
Qed.

Lemma sample_headers_wf : Forall2 header_of Sample.headers Sample.header_pairs.
Proof. repeat constructor. Qed.

Lemma get_header_value_exact_or_empty_witness :
  get_header_value (JArr Sample.headers) "From" = Ret (JStr "ann@example.org") /\
  get_header_value (JArr Sample.headers) "Subject" = Ret (JStr "").
Proof.
  split.
  - apply (proj1 (get_header_value_exact_or_empty Ref.lib Sample.headers
                    Sample.header_pairs "From" sample_headers_wf)
             [("Date", "Wed, 28 May 2025 10:59:07 +0000")] "ann@example.org"
             [("subject", "lower case")]).
    + reflexivity.
    + intros h [<- | []]. simpl. discriminate.
  - apply (proj1 (proj2 (get_header_value_exact_or_empty Ref.lib Sample.headers
                           Sample.header_pairs "Subject" sample_headers_wf))).
    intros h [<- | [<- | [<- | []]]]; simpl; discriminate.
Defined.

(* ================================================================= *)
(** ** Properties: email bodies *)

Section EmailBody.

Variable L : PyLib.

Lemma scan_parts_skip (pre rest : list json) :
  Forall not_text pre -> scan_parts L (pre ++ rest)%list = scan_parts L rest.
Proof.
  induction 1 as [| p pre [m [Hm Ht]] _ IH]; simpl.
  - reflexivity.
  - rewrite Hm. simpl. rewrite Ht. exact IH.
Qed.

Lemma scan_parts_no_match (children : list json) :
  Forall not_text children -> scan_parts L children = Ret None.
Proof.
  intros H. rewrite <- (app_nil_r children). now rewrite scan_parts_skip.
Qed.



(** C5. [parse_email_body] returns a string for every payload and never
    raises: whatever exception the extraction raises, a [ValueError] of the
    codec, a [KeyError] of a missing field or anything else, the result is
    a descriptive error text built from it. *)
Theorem parse_email_body_never_raises (payload : json) :
  (exists text, parse_email_body L payload = Ret text) /\
  (forall err,
      parse_email_body_try L payload = Raise err ->
      parse_email_body L payload = Ret (error_text err)).
Proof.
  unfold parse_email_body, error_text.
  destruct (parse_email_body_try L payload) as [text | err].
  - split; [eauto | discriminate].
  - split.
    + destruct (is_ValueError err); [| destruct (is_KeyError err)]; eauto.
    + intros err' [= <-].
      destruct (is_ValueError err); [| destruct (is_KeyError err)]; reflexivity.
Qed.

End EmailBody.


Lemma parse_email_body_never_raises_witness :
  parse_email_body Ref.lib Sample.bad_base64 =
    Ret "Error decoding email body: Invalid base64-encoded string" /\
  parse_email_body Ref.lib Sample.no_data =
    Ret "Error parsing email body: 'data'" /\
  parse_email_body Ref.lib (JArr []) =
    Ret "Error: list indices must be integers or slices, not str".
Proof.
  split; [| split].
  - apply (proj2 (parse_email_body_never_raises Ref.lib Sample.bad_base64)
             (mkExn BinasciiError "Invalid base64-encoded string")).
    reflexivity.
  - apply (proj2 (parse_email_body_never_raises Ref.lib Sample.no_data)
             (key_error "data")).
    reflexivity.
  - apply (proj2 (parse_email_body_never_raises Ref.lib (JArr []))
             (mkExn TypeError "list indices must be integers or slices, not str")).
    reflexivity.
Defined.

(* ================================================================= *)
(** ** Properties: the credential manager *)

Lemma attempts_app (t1 t2 : list event) :
  attempts (t1 ++ t2)%list = (attempts t1 + attempts t2)%nat.
Proof. unfold attempts. now rewrite filter_app, length_app. Qed.

Lemma removals_app (t1 t2 : list event) :
  removals (t1 ++ t2)%list = (removals t1 + removals t2)%nat.
Proof. unfold removals. now rewrite filter_app, length_app. Qed.

Section CredentialManager.

Variable V : Vendor.
Variable valves : Valves.

Ltac count_events :=
  simpl; repeat rewrite attempts_app; repeat rewrite removals_app;
  unfold attempts, removals; simpl; lia.

(** One pass through the [try] block asks once for the token file and removes
    nothing. *)
Lemma acquire_counts (w w1 : World) (a : attempt) :
  acquire V valves w = (a, w1) ->
  attempts (trace w1) = S (attempts (trace w)) /\
  removals (trace w1) = removals (trace w).
Proof.
  unfold acquire, load_cached, path_exists, renew, persist, open_token_w,
    write_token, call, bind, ret, record.
  destruct w as [tf tr lg]. simpl.
  destruct tf as [content |]; simpl.
  - destruct (from_authorized_user_file V _ content) as [c | e]; simpl.
    + destruct (cred_valid c); simpl.
      * intros [= <- <-]. count_events.
      * destruct (cred_expired c && has_refresh_token c); simpl.
        -- destruct (refresh V _ c) as [c' | e]; simpl.
           ++ destruct (to_json V _ c') as [txt | e]; simpl;
                intros [= <- <-]; count_events.
           ++ intros [= <- <-]. count_events.
        -- destruct (run_consent_flow V _ _) as [c' | e]; simpl.
           ++ destruct (to_json V _ c') as [txt | e]; simpl;
                intros [= <- <-]; count_events.
           ++ intros [= <- <-]. count_events.
    + intros [= <- <-]. count_events.
  - destruct (run_consent_flow V _ _) as [c' | e]; simpl.
    + destruct (to_json V _ c') as [txt | e]; simpl;
        intros [= <- <-]; count_events.
    + intros [= <- <-]. count_events.
Qed.

Lemma get_google_creds_no_retry (w w1 : World) (a : attempt) (error : exn) :
  acquire V valves w = (a, w1) ->
  att_error a = Some error ->
  get_google_creds V valves false w = (Ret (att_creds a), log_error error w1).
Proof.
  intros Ha He. unfold get_google_creds. simpl. rewrite Ha, He. reflexivity.
Qed.

Lemma get_google_creds_success (retry : bool) (w w1 : World) (a : attempt) :
  acquire V valves w = (a, w1) ->
  att_error a = None ->
  get_google_creds V valves retry w = (Ret (att_creds a), w1).
Proof.
  intros Ha He. unfold get_google_creds.
  destruct retry; simpl; rewrite Ha, He; reflexivity.
Qed.

Lemma get_google_creds_retry (w w1 : World) (a : attempt) (error : exn) :
  acquire V valves w = (a, w1) ->
  att_error a = Some error ->
  token_file w1 <> None ->
  get_google_creds V valves true w =
    get_google_creds V valves false (after_removal error w1).
Proof.
  intros Ha He Htf. unfold get_google_creds. simpl. rewrite Ha, He.
  unfold bind, logger, os_remove_token, record. simpl.
  destruct (token_file w1) as [content |]; [reflexivity | contradiction].
Qed.

Lemma get_google_creds_no_retry_counts (w w' : World) (r : result (option Credentials)) :
  get_google_creds V valves false w = (r, w') ->
  attempts (trace w') = S (attempts (trace w)) /\
  removals (trace w') = removals (trace w).
Proof.
  unfold get_google_creds. simpl.
  destruct (acquire V valves w) as [a w1] eqn:Ha.
  destruct (acquire_counts _ _ _ Ha) as [Hat Hrm].
  destruct (att_error a) as [error |].
  - unfold bind, logger, ret. simpl. intros [= <- <-]. simpl. auto.
  - intros [= <- <-]. auto.
Qed.

(** C1, as the code has it. When the [try] block raises: with [retry=False]
    the error is logged and not raised again, and the call returns whatever
    [creds] holds at that point; with [retry=True] and a token file on disk,
    the file is removed and the call continues as one call with
    [retry=False], so that in all the file is removed once and the
    acquisition is attempted twice. *)
Theorem get_google_creds_failure_policy (w w1 : World) (a : attempt) (error : exn) :
  acquire V valves w = (a, w1) ->
  att_error a = Some error ->
  get_google_creds V valves false w = (Ret (att_creds a), log_error error w1) /\
  (token_file w1 <> None ->
   get_google_creds V valves true w =
     get_google_creds V valves false (after_removal error w1) /\
   forall r w2,
     get_google_creds V valves true w = (r, w2) ->
     removals (trace w2) = S (removals (trace w)) /\
     attempts (trace w2) = S (S (attempts (trace w)))).
Proof.
  intros Ha He. split.
  - exact (get_google_creds_no_retry w w1 a error Ha He).
  - intros Htf.
    pose proof (get_google_creds_retry w w1 a error Ha He Htf) as Hretry.
    split; [exact Hretry |].
    intros r w2. rewrite Hretry. intros Hsecond.
    destruct (get_google_creds_no_retry_counts _ _ _ Hsecond) as [Hat Hrm].
    destruct (acquire_counts _ _ _ Ha) as [Hat1 Hrm1].
    simpl in Hat, Hrm. rewrite attempts_app in Hat. rewrite removals_app in Hrm.
    rewrite Hat, Hrm, Hat1, Hrm1. unfold attempts, removals. simpl. lia.
Qed.

(** C9. When the [try] block raises while there is no token file, the retry
    branch fails in [os.remove]: the caller gets that [FileNotFoundError]
    in place of the original error and no second attempt is made. So it is
    on a first run whose consent flow fails. *)
Theorem get_google_creds_retry_without_token_file (w : World) :
  (forall a w1 error,
      acquire V valves w = (a, w1) ->
      att_error a = Some error ->
      token_file w1 = None ->
      exists w2,
        get_google_creds V valves true w = (Raise token_missing, w2) /\
        attempts (trace w2) = S (attempts (trace w)) /\
        token_file w2 = None) /\
  (forall error,
      token_file w = None ->
      run_consent_flow V
        (record (EvConsentFlow (path_to_credentials valves)) (record EvPathExists w))
        (path_to_credentials valves) = Raise error ->
      exists w2,
        get_google_creds V valves true w = (Raise token_missing, w2) /\
        attempts (trace w2) = S (attempts (trace w)) /\
        token_file w2 = None).
Proof.
  assert (Hgen : forall a w1 error,
             acquire V valves w = (a, w1) ->
             att_error a = Some error ->
             token_file w1 = None ->
             exists w2,
               get_google_creds V valves true w = (Raise token_missing, w2) /\
               attempts (trace w2) = S (attempts (trace w)) /\
               token_file w2 = None).
  { intros a w1 error Ha He Htf.
    destruct (acquire_counts _ _ _ Ha) as [Hat _].
    unfold get_google_creds. simpl. rewrite Ha, He.
    unfold bind, logger, os_remove_token, record. simpl. rewrite Htf.
    eexists. split; [reflexivity |]. simpl. split; [| reflexivity].
    rewrite attempts_app, Hat. unfold attempts. simpl. lia. }
  split; [exact Hgen |].
  intros error Htf Hflow.
  apply (Hgen {| att_creds := None; att_error := Some error |}
           (record (EvConsentFlow (path_to_credentials valves))
              (record EvPathExists w)) error).
  - unfold acquire, load_cached, path_exists, renew, call, bind, ret.
    simpl. rewrite Htf. simpl. rewrite Hflow. reflexivity.
  - reflexivity.
  - simpl. exact Htf.
Qed.

End CredentialManager.

(** With [retry=False] a failed acquisition is not raised: on a corrupt token
    file the call returns [None]. Nor is a second consecutive failure: with
    [retry=True], a corrupt token file and no client-secret file, both
    attempts fail and the call still returns [None]. *)
Lemma get_google_creds_failure_not_raised :
  att_error (fst (acquire (Ref.vendor Sample.account) default_valves
                    (Ref.world (Some "garbage")))) = Some Sample.corrupt_token /\
  fst (get_google_creds (Ref.vendor Sample.account) default_valves false
         (Ref.world (Some "garbage"))) = Ret None /\
  att_error (fst (acquire (Ref.vendor Sample.no_client_secrets) default_valves
                    (after_removal Sample.corrupt_token
                       (snd (acquire (Ref.vendor Sample.no_client_secrets)
                               default_valves (Ref.world (Some "garbage")))))))
    = Some Sample.no_secrets_file /\
  fst (get_google_creds (Ref.vendor Sample.no_client_secrets) default_valves true
         (Ref.world (Some "garbage"))) = Ret None.
Proof. repeat split. Qed.

Lemma get_google_creds_failure_policy_witness :
  fst (get_google_creds (Ref.vendor Sample.account) default_valves false
         (Ref.world (Some "garbage"))) = Ret None /\
  get_google_creds (Ref.vendor Sample.account) default_valves true
    (Ref.world (Some "garbage")) =
  get_google_creds (Ref.vendor Sample.account) default_valves false
    (mkWorld None [EvPathExists; EvLoadToken; EvRemoveToken]
       [(ERROR, "Error getting credentials: Expecting value: line 1 column 1 (char 0)");
        (INFO, "Retrying to get credentials")]).
Proof.
  destruct (get_google_creds_failure_policy (Ref.vendor Sample.account)
              default_valves (Ref.world (Some "garbage"))
              (mkWorld (Some "garbage") [EvPathExists; EvLoadToken] [])
              {| att_creds := None; att_error := Some Sample.corrupt_token |}
              Sample.corrupt_token eq_refl eq_refl) as [Hfalse Htrue].
  split.
  - rewrite Hfalse. reflexivity.
  - apply Htrue. simpl. discriminate.
Defined.

Lemma get_google_creds_retry_without_token_file_witness :
  exists w2,
    get_google_creds (Ref.vendor Sample.no_client_secrets) default_valves true
      (Ref.world None) = (Raise token_missing, w2) /\
    attempts (trace w2) = 1%nat /\
    token_file w2 = None.
Proof.
  apply (proj2 (get_google_creds_retry_without_token_file
                  (Ref.vendor Sample.no_client_secrets) default_valves
                  (Ref.world None)) Sample.no_secrets_file); reflexivity.
Defined.

(* ================================================================= *)
(** ** Properties: the public operations *)

(** C10. Called with [__event_emitter__=None], each public operation raises
    the [TypeError] of calling [None] at its first [await]: nothing has been
    asked of the vendor or of the token file, and no output is produced. Only
    [gmail_create_draft] has logged a line before. *)
Theorem public_operations_need_emitter (L : PyLib) (V : Vendor) (valves : Valves)
    (w : World) :
  (forall count label_id,
      get_user_emails L V valves count label_id None w = (Raise not_callable, w)) /\
  (forall message_id,
      get_email_content L V valves message_id None w = (Raise not_callable, w)) /\
  (forall count,
      get_user_events L V valves count None w = (Raise not_callable, w)) /\
  (forall to subject body,
      gmail_create_draft L V valves to subject body None w =
        (Raise not_callable,
         mkWorld (token_file w) (trace w)
           (log w ++ [(DEBUG, "Creating draft message...")])%list)).
Proof.
  repeat split.
Qed.

Lemma str_app_nil_r (s : string) : s ++ "" = s.
Proof. induction s as [| c s IH]; simpl; [reflexivity | now rewrite IH]. Qed.

Lemma str_app_assoc (a b c : string) : (a ++ b) ++ c = a ++ (b ++ c).
Proof. induction a as [| x a IH]; simpl; [reflexivity | now rewrite IH]. Qed.

Lemma skipn_nth_error {A} (l : list A) (i : nat) (x : A) :
  nth_error l i = Some x -> skipn i l = x :: skipn (S i) l.
Proof.
  revert i. induction l as [| y l IH]; intros [| i]; simpl; try discriminate.
  - intros [= ->]. reflexivity.
  - intros H. now rewrite (IH i H).
Qed.

(** From [bind m k w = (Ret _, _)] to the two steps it was made of. *)
Ltac inv_bind H :=
  let a := fresh "a" in
  let w := fresh "w" in
  let Hm := fresh "Hm" in
  apply bind_Ret in H; destruct H as (a & w & Hm & H).

Section OutputShape.

Variable L : PyLib.
Variable V : Vendor.
Variable valves : Valves.

(** The loop over [range(count)] in closed form: the first [todo] events from
    index [i] on, or an [IndexError] when the list ends before. *)
Lemma format_events_loop_spec (evs : list CalEvent) :
  forall todo i out,
    (i <= length evs)%nat ->
    format_events_loop L evs i todo out =
      if (i + todo <=? length evs)%nat
      then Ret (out ++ concat_all (map (format_event L) (firstn todo (skipn i evs))))
      else Raise (mkExn IndexError "list index out of range").
Proof.
  induction todo as [| todo IH]; intros i out Hi; simpl.
  - replace (i + 0 <=? length evs)%nat with true
      by (symmetry; apply Nat.leb_le; lia).
    now rewrite str_app_nil_r.
  - destruct (nth_error evs i) as [ev |] eqn:E.
    + assert (i < length evs)%nat by (apply nth_error_Some; congruence).
      rewrite IH by lia.
      replace (S i + todo <=? length evs)%nat with (i + S todo <=? length evs)%nat
        by (f_equal; lia).
      destruct (i + S todo <=? length evs)%nat; [| reflexivity].
      rewrite (skipn_nth_error _ _ _ E). simpl. now rewrite str_app_assoc.
    + apply nth_error_None in E.
      replace (i + S todo <=? length evs)%nat with false
        by (symmetry; apply Nat.leb_gt; lia).
      reflexivity.
Qed.

Lemma emails_loop_shape (items : list json) :
  forall out w s w',
    emails_loop L V items out w = (Ret s, w') ->
    exists ms, s = out ++ concat_all (map MAIL_FORMAT_format ms).
Proof.
  induction items as [| msg rest IH]; simpl; intros out w s w' H.
  - inversion H. exists []. simpl. now rewrite str_app_nil_r.
  - do 5 inv_bind H.
    apply IH in H. destruct H as [ms ->].
    exists (a3 :: ms). simpl. now rewrite str_app_assoc.
Qed.

Lemma user_emails_try_shape count label_id w s w' :
  user_emails_try L V valves count label_id w = (Ret s, w') ->
  s = "No messages found." \/
  exists ms, s = concat_all (map MAIL_FORMAT_format ms).
Proof.
  unfold user_emails_try. intros H.
  do 4 inv_bind H.
  destruct (py_truthy a2).
  - inv_bind H. apply emails_loop_shape in H. destruct H as [ms ->].
    right. exists ms. reflexivity.
  - inversion H. now left.
Qed.

Lemma get_user_emails_shape count label_id emitter w s w' :
  get_user_emails L V valves count label_id emitter w = (Ret s, w') ->
  exists description out,
    s = MAIN_FORMAT_format description ("<emails>" ++ out ++ "</emails>") /\
    emails_output out.
Proof.
  unfold get_user_emails. intros H.
  do 6 inv_bind H. unfold ret in H. inversion H; subst. clear H.
  eexists. exists a2. split; [reflexivity |].
  apply try_except_Ret in Hm2. destruct Hm2 as [Hb | (e & w5 & Hb & Hc & Hh)].
  - apply user_emails_try_shape in Hb. destruct Hb as [-> | [ms ->]].
    + now left.
    + right. right. eauto.
  - unfold ret in Hh. inversion Hh; subst. right. left. eexists. reflexivity.
Qed.

Lemma get_email_content_shape message_id emitter w s w' :
  get_email_content L V valves message_id emitter w = (Ret s, w') ->
  exists description body,
    s = MAIN_FORMAT_format description ("<![CDATA[" ++ body ++ "]]>").
Proof.
  unfold get_email_content. intros H.
  do 6 inv_bind H. unfold ret in H. inversion H; subst.
  eexists. eexists. reflexivity.
Qed.

Lemma user_events_try_shape count w s w' :
  user_events_try L V valves count w = (Ret s, w') ->
  exists evs, s = concat_all (map (format_event L) evs).
Proof.
  unfold user_events_try. intros H.
  do 6 inv_bind H.
  apply lift_Ret in H. destruct H as [H _].
  rewrite format_events_loop_spec in H by lia. simpl in H.
  destruct (Z.to_nat count <=? length a4)%nat; [| discriminate].
  inversion H. eauto.
Qed.

Lemma get_user_events_shape count emitter w s w' :
  get_user_events L V valves count emitter w = (Ret s, w') ->
  exists description out,
    s = MAIN_FORMAT_format description ("<events>" ++ out ++ "</events>") /\
    events_output L out.
Proof.
  unfold get_user_events. intros H.
  do 6 inv_bind H. unfold ret in H. inversion H; subst. clear H.
  eexists. exists a2. split; [reflexivity |].
  apply try_except_Ret in Hm2. destruct Hm2 as [Hb | (e & w5 & Hb & Hc & Hh)].
  - apply user_events_try_shape in Hb. destruct Hb as [evs ->]. right. eauto.
  - unfold ret in Hh. inversion Hh; subst. left. eexists. reflexivity.
Qed.

Lemma gmail_create_draft_shape to subject body emitter w s w' :
  gmail_create_draft L V valves to subject body emitter w = (Ret s, w') ->
  draft_output s.
Proof.
  unfold gmail_create_draft, draft_output. intros H.
  do 5 inv_bind H. unfold ret in H. inversion H; subst. clear H.
  apply try_except_Ret in Hm1. destruct Hm1 as [Hb | (e & w5 & Hb & Hc & Hh)].
  - unfold create_draft_try in Hb. do 4 inv_bind Hb.
    unfold ret in Hb. inversion Hb. now left.
  - unfold ret in Hh. inversion Hh; subst. right. eexists. reflexivity.
Qed.

(** A host that accepts every status, and a vendor failure. *)
Variable emit : Emitter.
Hypothesis emit_ok : forall w d b, emit w d b = Ret tt.
Variable error : exn.
Hypothesis error_http : is_HttpError error = true.

Lemma get_user_emails_http_error count label_id w :
  (forall w0 n, exists w1,
      user_emails_try L V valves n label_id w0 = (Raise error, w1)) ->
  exists description w',
    get_user_emails L V valves count label_id (Some emit) w =
      (Ret (MAIN_FORMAT_format description
              ("<emails>" ++ ("An error occurred: " ++ exn_msg error)
                 ++ "</emails>")), w').
Proof.
  intros Hdown.
  unfold get_user_emails, await_emitter, get_current_time, call, logger,
    try_except, bind, ret. simpl.
  rewrite emit_ok.
  match goal with
  | |- context [user_emails_try L V valves ?n label_id ?w0] =>
      destruct (Hdown w0 n) as [w1 ->]
  end.
  rewrite error_http. simpl. rewrite emit_ok. eauto.
Qed.

Lemma get_email_content_http_error message_id w :
  (forall w0, exists w1,
      email_content_try L V valves message_id w0 = (Raise error, w1)) ->
  exists description w',
    get_email_content L V valves message_id (Some emit) w =
      (Ret (MAIN_FORMAT_format description
              ("<![CDATA[" ++ ("An error occurred: " ++ exn_msg error)
                 ++ "]]>")), w').
Proof.
  intros Hdown.
  unfold get_email_content, await_emitter, get_current_time, call, logger,
    try_except, bind, ret. simpl.
  rewrite emit_ok.
  match goal with
  | |- context [email_content_try L V valves message_id ?w0] =>
      destruct (Hdown w0) as [w1 ->]
  end.
  rewrite error_http. simpl. rewrite emit_ok. eauto.
Qed.

Lemma get_user_events_http_error count w :
  (forall w0 n, exists w1,
      user_events_try L V valves n w0 = (Raise error, w1)) ->
  exists description w',
    get_user_events L V valves count (Some emit) w =
      (Ret (MAIN_FORMAT_format description
              ("<events>" ++ ("Error fetching calendar data: " ++ exn_msg error)
                 ++ "</events>")), w').
Proof.
  intros Hdown.
  unfold get_user_events, await_emitter, get_current_time, call, logger,
    try_except, bind, ret. simpl.
  rewrite emit_ok.
  match goal with
  | |- context [user_events_try L V valves ?n ?w0] =>
      destruct (Hdown w0 n) as [w1 ->]
  end.
  rewrite error_http. simpl. rewrite emit_ok. eauto.
Qed.

(** C6, as the code has it. Whatever [get_user_emails], [get_email_content]
    and [get_user_events] return is the envelope [<interpreter_output>] with
    [<description>] and [<output>], the output being [<emails>] around
    [<email>] records, a CDATA section, or [<events>] around [<event>]
    records; an [HttpError] of the vendor comes back as error text inside the
    same envelope. [gmail_create_draft] returns a bare sentence, the
    confirmation or the error text, without the envelope. *)
Theorem public_operations_output :
  (forall count label_id emitter w s w',
      get_user_emails L V valves count label_id emitter w = (Ret s, w') ->
      exists description out,
        s = MAIN_FORMAT_format description ("<emails>" ++ out ++ "</emails>") /\
        emails_output out) /\
  (forall message_id emitter w s w',
      get_email_content L V valves message_id emitter w = (Ret s, w') ->
      exists description body,
        s = MAIN_FORMAT_format description ("<![CDATA[" ++ body ++ "]]>")) /\
  (forall count emitter w s w',
      get_user_events L V valves count emitter w = (Ret s, w') ->
      exists description out,
        s = MAIN_FORMAT_format description ("<events>" ++ out ++ "</events>") /\
        events_output L out) /\
  (forall to subject body emitter w s w',
      gmail_create_draft L V valves to subject body emitter w = (Ret s, w') ->
      draft_output s) /\
  (forall count label_id w,
      (forall w0 n, exists w1,
          user_emails_try L V valves n label_id w0 = (Raise error, w1)) ->
      exists description w',
        get_user_emails L V valves count label_id (Some emit) w =
          (Ret (MAIN_FORMAT_format description
                  ("<emails>" ++ ("An error occurred: " ++ exn_msg error)
                     ++ "</emails>")), w')) /\
  (forall message_id w,
      (forall w0, exists w1,
          email_content_try L V valves message_id w0 = (Raise error, w1)) ->
      exists description w',
        get_email_content L V valves message_id (Some emit) w =
          (Ret (MAIN_FORMAT_format description
                  ("<![CDATA[" ++ ("An error occurred: " ++ exn_msg error)
                     ++ "]]>")), w')) /\
  (forall count w,
      (forall w0 n, exists w1,
          user_events_try L V valves n w0 = (Raise error, w1)) ->
      exists description w',
        get_user_events L V valves count (Some emit) w =
          (Ret (MAIN_FORMAT_format description
                  ("<events>" ++ ("Error fetching calendar data: " ++ exn_msg error)
                     ++ "</events>")), w')).
Proof.
  repeat match goal with |- _ /\ _ => split end.
  - exact get_user_emails_shape.
  - exact get_email_content_shape.
  - exact get_user_events_shape.
  - exact gmail_create_draft_shape.
  - exact get_user_emails_http_error.
  - exact get_email_content_http_error.
  - exact get_user_events_http_error.
Qed.

End OutputShape.

(** The scripted vendor always hands out credentials when its client-secret
    file is where the valves say and its token endpoint answers. *)
Lemma ref_creds_ok (a : Ref.Account) (valves : Valves) :
  Ref.client_secrets_file a = path_to_credentials valves ->
  Ref.token_endpoint_up a = true ->
  forall w, exists c w',
    get_google_creds (Ref.vendor a) valves true w = (Ret c, w').
Proof.
  intros Hpath Hup [tf tr lg].
  unfold get_google_creds, get_google_creds_from, acquire, load_cached, path_exists,
    renew, persist, open_token_w, write_token, os_remove_token, logger, call,
    bind, ret, record.
  simpl. unfold Ref.parse_token. rewrite <- Hpath, Hup, String.eqb_refl.
  destruct tf as [content |]; simpl.
  - destruct (String.eqb content "fresh"); simpl; [eauto |].
    destruct (String.eqb content "expired"); simpl; eauto.
  - eauto.
Qed.

(** [gmail_create_draft] returns its confirmation, and a vendor failure, as a
    bare sentence: neither is the envelope, which starts with a line break. *)
Lemma gmail_create_draft_returns_bare_text :
  fst (gmail_create_draft Ref.lib (Ref.vendor Sample.account) default_valves
         "bob@example.org" "Hi" "See you at noon." (Some Ref.emitter)
         (Ref.world (Some "fresh"))) = Ret "Draft message created!" /\
  fst (gmail_create_draft Ref.lib (Ref.vendor Sample.out_of_quota) default_valves
         "bob@example.org" "Hi" "See you at noon." (Some Ref.emitter)
         (Ref.world (Some "fresh")))
    = Ret "An error occurred: <HttpError 429 rateLimitExceeded>" /\
  (forall description output,
      MAIN_FORMAT_format description output <> "Draft message created!" /\
      MAIN_FORMAT_format description output <>
        "An error occurred: <HttpError 429 rateLimitExceeded>").
Proof.
  split; [reflexivity | split; [reflexivity |]].
  intros description output. split; discriminate.
Qed.

Lemma out_of_quota_emails (label_id : string) :
  forall w0 n, exists w1,
    user_emails_try Ref.lib (Ref.vendor Sample.out_of_quota) default_valves n
      label_id w0 = (Raise Ref.rate_limited, w1).
Proof.
  intros w0 n. unfold user_emails_try.
  destruct (ref_creds_ok Sample.out_of_quota default_valves eq_refl eq_refl w0)
    as (c & w' & Hc).
  rewrite (bind_step _ _ _ _ _ Hc).
  unfold bind, call. simpl. eauto.
Qed.

Lemma public_operations_output_witness :
  (exists s w',
      get_user_emails Ref.lib (Ref.vendor Sample.account) default_valves 5 "INBOX"
        (Some Ref.emitter) (Ref.world (Some "fresh")) = (Ret s, w') /\
      exists description out,
        s = MAIN_FORMAT_format description ("<emails>" ++ out ++ "</emails>") /\
        emails_output out) /\
  (exists description w',
      get_user_emails Ref.lib (Ref.vendor Sample.out_of_quota) default_valves 5
        "INBOX" (Some Ref.emitter) (Ref.world (Some "fresh")) =
        (Ret (MAIN_FORMAT_format description
                ("<emails>An error occurred: <HttpError 429 rateLimitExceeded></emails>")),
         w')).
Proof.
  split.
  - eexists. eexists. split.
    + vm_compute. reflexivity.
    + eapply (proj1 (public_operations_output Ref.lib (Ref.vendor Sample.account)
                       default_valves Ref.emitter (fun _ _ _ => eq_refl)
                       Ref.rate_limited eq_refl)
                5%Z "INBOX" (Some Ref.emitter) (Ref.world (Some "fresh"))).
      vm_compute. reflexivity.
  - apply (proj1 (proj2 (proj2 (proj2 (proj2
             (public_operations_output Ref.lib (Ref.vendor Sample.out_of_quota)
                default_valves Ref.emitter (fun _ _ _ => eq_refl)
                Ref.rate_limited eq_refl)))))
             5%Z "INBOX" (Ref.world (Some "fresh"))).
    apply out_of_quota_emails.
Defined.

(* ================================================================= *)
(** ** Properties: the calendar aggregation *)


Lemma insert_event_perm (ev : CalEvent) (l : list CalEvent) :
  Permutation (ev :: l) (insert_event ev l).
Proof.
  induction l as [| x l IH]; simpl.
  - apply Permutation_refl.
  - destruct (String.leb (start_key ev) (start_key x)).
    + apply Permutation_refl.
    + apply perm_trans with (x :: ev :: l); [apply perm_swap |].
      now apply perm_skip.
Qed.

Lemma sort_stable_perm (evs : list CalEvent) : Permutation evs (sort_stable evs).
Proof.
  induction evs as [| ev evs IH]; simpl.
  - apply perm_nil.
  - apply perm_trans with (ev :: sort_stable evs).
    + now apply perm_skip.
    + apply insert_event_perm.
Qed.






Lemma sort_by_start_strings (evs : list CalEvent) :
  forallb (fun ev => is_Some (start_string ev)) evs = true ->
  sort_by_start evs = Ret (sort_stable evs).
Proof.
  intros H. unfold sort_by_start.
  destruct evs as [| a [| b rest]]; try reflexivity.
  now rewrite H.
Qed.

Lemma cal_evt_of_view (e : json) (v : EventView) :
  event_view e v -> has_start v = true -> cal_evt_of e = Ret (listed v).
Proof.
  intros (start & organizer & Hs & Hdt & Hd & Hsum & Ho & Hdn & Hem) Hstart.
  unfold cal_evt_of, listed, start_of, calendar_label, has_start in *.
  rewrite Hs. simpl. rewrite Hd, Hdt. rewrite Hsum, Ho. simpl. rewrite Hdn, Hem.
  destruct (view_dateTime v), (view_date v), (view_displayName v);
    simpl in *; try reflexivity; discriminate.
Qed.

Lemma events_requests_app (t1 t2 : list event) :
  events_requests (t1 ++ t2)%list = (events_requests t1 ++ events_requests t2)%list.
Proof. apply flat_map_app. Qed.

Section CalendarAggregation.

Variable L : PyLib.
Variable V : Vendor.
Variable valves : Valves.

Ltac same_requests :=
  simpl; repeat rewrite events_requests_app; simpl;
  repeat rewrite app_nil_r; reflexivity.

Lemma acquire_requests (w w1 : World) (a : attempt) :
  acquire V valves w = (a, w1) ->
  events_requests (trace w1) = events_requests (trace w).
Proof.
  unfold acquire, load_cached, path_exists, renew, persist, open_token_w,
    write_token, call, bind, ret, record.
  destruct w as [tf tr lg]. simpl.
  destruct tf as [content |]; simpl.
  - destruct (from_authorized_user_file V _ content) as [c | e]; simpl.
    + destruct (cred_valid c); simpl.
      * intros [= <- <-]. same_requests.
      * destruct (cred_expired c && has_refresh_token c); simpl.
        -- destruct (refresh V _ c) as [c' | e]; simpl.
           ++ destruct (to_json V _ c') as [txt | e]; simpl;
                intros [= <- <-]; same_requests.
           ++ intros [= <- <-]. same_requests.
        -- destruct (run_consent_flow V _ _) as [c' | e]; simpl.
           ++ destruct (to_json V _ c') as [txt | e]; simpl;
                intros [= <- <-]; same_requests.
           ++ intros [= <- <-]. same_requests.
    + intros [= <- <-]. same_requests.
  - destruct (run_consent_flow V _ _) as [c' | e]; simpl.
    + destruct (to_json V _ c') as [txt | e]; simpl;
        intros [= <- <-]; same_requests.
    + intros [= <- <-]. same_requests.
Qed.

Lemma get_google_creds_requests (retries : nat) :
  forall w r w',
    get_google_creds_from V valves retries w = (r, w') ->
    events_requests (trace w') = events_requests (trace w).
Proof.
  induction retries as [| retries IH]; intros w r w'; simpl;
    destruct (acquire V valves w) as [a w1] eqn:Ha;
    pose proof (acquire_requests _ _ _ Ha) as Hreq;
    destruct (att_error a) as [error |].
  - unfold bind, logger, ret. simpl. intros [= <- <-]. exact Hreq.
  - intros [= <- <-]. exact Hreq.
  - unfold bind, logger, os_remove_token, record. simpl.
    destruct (token_file w1).
    + intros H. apply IH in H. simpl in H. rewrite H.
      rewrite events_requests_app, Hreq. simpl. now rewrite app_nil_r.
    + intros [= <- <-]. simpl.
      rewrite events_requests_app, Hreq. simpl. now rewrite app_nil_r.
  - intros [= <- <-]. exact Hreq.
Qed.

Lemma cal_evts_loop_views (items : list (json * EventView)) :
  Forall well_viewed items ->
  forall out,
    cal_evts_loop (map fst items) out =
      Ret (out ++ map (fun iv => listed (snd iv)) items)%list.
Proof.
  induction 1 as [| iv items [Hv Hs] _ IH]; intros out; simpl.
  - now rewrite app_nil_r.
  - rewrite (cal_evt_of_view _ _ Hv Hs). simpl. rewrite IH.
    now rewrite <- app_assoc.
Qed.

(** The run: the host accepts every status, credentials are obtained, the
    client is built, the calendar list holds the calendars of [feeds], and
    asked for at most [n] events of one of them the vendor answers with its
    [feed_items]. *)
Variable emit : Emitter.
Hypothesis emit_ok : forall w d b, emit w d b = Ret tt.

Hypothesis creds_ok :
  forall w, exists c w', get_google_creds V valves true w = (Ret c, w').

Hypothesis build_ok : forall w c, build V w "calendar" c = Ret tt.

Variable feeds : list Feed.
Variable count : Z.

Let n : Z := effective_count count (default_calendar_entries valves).

Hypothesis calendars_ok :
  forall w, exists resp items,
    calendarList_list V w = Ret resp /\
    py_get resp "items" (JArr []) = Ret (JArr items) /\
    Forall2 (fun item f => py_getitem item "id" = Ret (feed_id f)) items feeds.

Hypothesis events_ok :
  forall w f from_time,
    In f feeds ->
    exists resp,
      events_list V w (feed_id f) n from_time = Ret resp /\
      py_get resp "items" (JArr []) = Ret (JArr (map fst (feed_items f))).

Hypothesis events_viewed :
  forall f, In f feeds -> Forall well_viewed (feed_items f).

Lemma calendar_ids_loop_feeds (items : list json) (fs : list Feed) :
  Forall2 (fun item f => py_getitem item "id" = Ret (feed_id f)) items fs ->
  forall out,
    calendar_ids_loop items out = Ret (out ++ map feed_id fs)%list.
Proof.
  induction 1 as [| item f items fs Hid _ IH]; intros out; simpl.
  - now rewrite app_nil_r.
  - rewrite Hid. simpl. rewrite IH. now rewrite <- app_assoc.
Qed.

Lemma get_calendar_ids_run (w : World) :
  exists w',
    get_calendar_ids L V w = (Ret (map feed_id feeds), w') /\
    trace w' = (trace w ++ [EvCalendarList])%list.
Proof.
  unfold get_calendar_ids, call, lift, logger, bind, ret.
  destruct (calendars_ok (record EvCalendarList w)) as (resp & items & -> & -> & Hids).
  simpl. rewrite (calendar_ids_loop_feeds _ _ Hids). simpl.
  eexists. split; reflexivity.
Qed.

Lemma get_cal_evts_run (f : Feed) (from_time : string) (w : World) :
  In f feeds ->
  get_cal_evts V (feed_id f) n from_time w =
    (Ret (feed_events f), record (EvEventsList (feed_id f) n from_time) w).
Proof.
  intros Hin. unfold get_cal_evts, call, lift, bind.
  destruct (events_ok (record (EvEventsList (feed_id f) n from_time) w) f from_time Hin)
    as (resp & -> & ->).
  simpl. rewrite (cal_evts_loop_views _ (events_viewed f Hin)). reflexivity.
Qed.

Lemma fetch_events_run (from_time : string) (fs : list Feed) :
  (forall f, In f fs -> In f feeds) ->
  forall acc w,
    exists w',
      fetch_events V (map feed_id fs) n from_time acc w =
        (Ret (acc ++ flat_map feed_events fs)%list, w') /\
      trace w' =
        (trace w ++ map (fun f => EvEventsList (feed_id f) n from_time) fs)%list.
Proof.
  induction fs as [| f fs IH]; intros Hin acc w; simpl.
  - exists w. unfold ret. now rewrite !app_nil_r.
  - rewrite (bind_step _ _ _ _ _ (get_cal_evts_run f from_time w (Hin f (or_introl eq_refl)))).
    destruct (IH (fun g Hg => Hin g (or_intror Hg)) (acc ++ feed_events f)%list
                (record (EvEventsList (feed_id f) n from_time) w)) as (w' & -> & Htr).
    exists w'. split.
    + now rewrite <- app_assoc.
    + rewrite Htr. simpl. now rewrite <- app_assoc.
Qed.

Lemma merged_strings :
  forallb (fun ev => is_Some (start_string ev)) (merged feeds) = true.
Proof.
  unfold merged. apply forallb_forall. intros ev Hin.
  apply in_flat_map in Hin. destruct Hin as (f & _ & Hin).
  unfold feed_events in Hin. apply in_map_iff in Hin.
  destruct Hin as (iv & <- & _). reflexivity.
Qed.


Lemma user_events_try_run (w0 : World) :
  exists w1,
    user_events_try L V valves n w0 =
      ((if (Z.to_nat n <=? length (merged feeds))%nat
        then Ret (concat_all (map (format_event L)
                                (firstn (Z.to_nat n) (sort_stable (merged feeds)))))
        else Raise index_error), w1) /\
    events_requests (trace w1) =
      (events_requests (trace w0) ++ map (fun f => (feed_id f, n)) feeds)%list.
Proof.
  unfold user_events_try.
  destruct (creds_ok w0) as (c & wa & Hc).
  rewrite (bind_step _ _ _ _ _ Hc).
  pose proof (get_google_creds_requests 1 _ _ _ Hc) as Hreq.
  unfold bind at 1. unfold call at 1. rewrite build_ok.
  unfold bind at 1. unfold get_current_time at 1. unfold call at 1.
  set (wb := record EvClock (record (EvBuild "calendar" c) wa)).
  set (from_time := utcnow_isoformat V wb ++ "Z").
  destruct (get_calendar_ids_run wb) as (wc & Hids & Htrc).
  rewrite (bind_step _ _ _ _ _ Hids).
  destruct (fetch_events_run from_time feeds (fun f H => H) [] wc)
    as (wd & Hfetch & Htrd).
  rewrite (bind_step _ _ _ _ _ Hfetch). simpl app. fold (merged feeds).
  unfold bind, lift. rewrite (sort_by_start_strings _ merged_strings).
  rewrite (format_events_loop_spec L) by lia. simpl.
  rewrite <- (Permutation_length (sort_stable_perm (merged feeds))).
  exists wd. split; [reflexivity |].
  rewrite Htrd, Htrc. subst wb. simpl.
  rewrite !events_requests_app. simpl. rewrite Hreq, !app_nil_r.
  f_equal. clear. induction feeds as [| f fs IH]; simpl; [reflexivity | now rewrite IH].
Qed.


(** C3. When the calendars together hold fewer events than the count asked
    for, [get_user_events] does not return: the loop over [range(count)]
    indexes past the end of the merged list, and the [IndexError] goes to
    the caller, the [except HttpError] clause not catching it. *)
Theorem get_user_events_too_few (w : World) :
  (length (merged feeds) < Z.to_nat n)%nat ->
  exists w',
    get_user_events L V valves count (Some emit) w = (Raise index_error, w').
Proof.
  intros Hn.
  unfold get_user_events, await_emitter, get_current_time, call, logger,
    try_except, bind, ret. simpl.
  rewrite emit_ok.
  match goal with
  | |- context [user_events_try L V valves _ ?w0] =>
      destruct (user_events_try_run w0) as (w1 & Hrun & Hreq)
  end.
  unfold n in Hrun, Hn |- *. rewrite Hrun.
  match goal with
  | |- context [(?a <=? ?b)%nat] =>
      replace (a <=? b)%nat with false by (symmetry; apply Nat.leb_gt; exact Hn)
  end.
  simpl. eauto.
Qed.

End CalendarAggregation.

(** The scripted vendor on the sample account is such a run, for every count
    of at least two, the size of its larger calendar. *)
Lemma sample_calendars_ok :
  forall w, exists resp items,
    calendarList_list (Ref.vendor Sample.account) w = Ret resp /\
    py_get resp "items" (JArr []) = Ret (JArr items) /\
    Forall2 (fun item f => py_getitem item "id" = Ret (feed_id f)) items
      Sample.feeds.
Proof.
  intros w. eexists. eexists.
  split; [reflexivity | split; [reflexivity | repeat constructor]].
Qed.

Lemma sample_events_ok (count : Z) :
  (2 <= Z.to_nat (effective_count count (default_calendar_entries default_valves)))%nat ->
  forall w f from_time,
    In f Sample.feeds ->
    exists resp,
      events_list (Ref.vendor Sample.account) w (feed_id f)
        (effective_count count (default_calendar_entries default_valves))
        from_time = Ret resp /\
      py_get resp "items" (JArr []) = Ret (JArr (map fst (feed_items f))).
Proof.
  intros Hn w f from_time [<- | [<- | []]]; simpl in Hn |- *;
    (eexists; split; [reflexivity |]); simpl;
    rewrite firstn_all2 by (simpl; lia); reflexivity.
Qed.

Lemma sample_events_viewed :
  forall f, In f Sample.feeds -> Forall well_viewed (feed_items f).
Proof.
  intros f [<- | [<- | []]]; simpl;
    repeat (apply Forall_cons || apply Forall_nil);
    (split; [| reflexivity]);
    unfold event_view; simpl; eexists; eexists; repeat split.
Qed.



Lemma get_user_events_too_few_witness :
  exists w',
    get_user_events Ref.lib (Ref.vendor Sample.account) default_valves 4
      (Some Ref.emitter) (Ref.world (Some "fresh")) = (Raise index_error, w').
Proof.
  apply (get_user_events_too_few Ref.lib (Ref.vendor Sample.account)
           default_valves Ref.emitter (fun _ _ _ => eq_refl)
           (ref_creds_ok Sample.account default_valves eq_refl eq_refl)
           (fun _ _ => eq_refl) Sample.feeds 4
           sample_calendars_ok
           (sample_events_ok 4 (le_S 2 3 (le_S 2 2 (le_n 2))))
           sample_events_viewed (Ref.world (Some "fresh")) (le_n 4)).
Defined.

(* ================================================================= *)
(** ** Further properties: the life of the cached token *)

Section CredentialLifecycle.

Variable V : Vendor.
Variable valves : Valves.

(** X1. With a valid cached token, [get_google_creds] returns the token it
    loaded, and so does a second call right after: no refresh, no consent
    flow, nothing removed, nothing logged, and [token.json] is left as it
    was. *)
Theorem get_google_creds_cached_valid (retry : bool) (w : World)
    (content : string) (c : Credentials) :
  token_file w = Some content ->
  (forall w0, from_authorized_user_file V w0 content = Ret c) ->
  cred_valid c = true ->
  exists w1 w2,
    get_google_creds V valves retry w = (Ret (Some c), w1) /\
    get_google_creds V valves retry w1 = (Ret (Some c), w2) /\
    token_file w2 = Some content /\
    network_calls (trace w2) = network_calls (trace w) /\
    removals (trace w2) = removals (trace w) /\
    log w2 = log w.
Proof.
  intros Htf Hload Hvalid.
  assert (Hone : forall w0, token_file w0 = Some content ->
            get_google_creds V valves retry w0 =
              (Ret (Some c), record EvLoadToken (record EvPathExists w0))).
  { intros w0 H0. apply get_google_creds_success with
      (a := {| att_creds := Some c; att_error := None |}); [| reflexivity].
    unfold acquire, load_cached, path_exists, call, bind, ret. simpl.
    rewrite H0. simpl. rewrite H0, Hload. simpl. now rewrite Hvalid. }
  eexists. eexists. split; [apply Hone; exact Htf |].
  split; [apply Hone; exact Htf |].
  simpl. repeat split; try assumption.
  - unfold network_calls. rewrite !filter_app, !length_app. simpl. lia.
  - rewrite !removals_app. unfold removals. simpl. lia.
Qed.

(** X4. After a failed first attempt with a token file on disk, the retry never
    reads a cached token again: the file is gone, so the second attempt runs
    the consent flow. If the flow fails too, the call returns [None]; if it
    succeeds, the call returns the new credentials and writes their JSON to
    [token.json]. *)
Theorem get_google_creds_retry_reauthorizes (w w1 : World) (a : attempt)
    (error : exn) :
  acquire V valves w = (a, w1) ->
  att_error a = Some error ->
  token_file w1 <> None ->
  let path := path_to_credentials valves in
  let w2 := record (EvConsentFlow path)
              (record EvPathExists (after_removal error w1)) in
  (forall e,
      run_consent_flow V w2 path = Raise e ->
      get_google_creds V valves true w = (Ret None, log_error e w2)) /\
  (forall c,
      run_consent_flow V w2 path = Ret c ->
      exists w',
        get_google_creds V valves true w = (Ret (Some c), w') /\
        (forall txt,
            to_json V (snd (open_token_w w2)) c = Ret txt ->
            token_file w' = Some txt)).
Proof.
  intros Ha He Htf path w2.
  rewrite (get_google_creds_retry V valves w w1 a error Ha He Htf).
  unfold get_google_creds. simpl.
  unfold acquire, load_cached, path_exists, renew, persist, open_token_w,
    write_token, call, bind, ret. simpl. fold path. fold w2.
  split.
  - intros e Hflow. rewrite Hflow. reflexivity.
  - intros c Hflow. rewrite Hflow. simpl.
    destruct (to_json V _ c) as [txt | e] eqn:Hjson; simpl.
    + eexists. split; [reflexivity |]. intros txt' [= <-]. reflexivity.
    + eexists. split; [reflexivity |]. intros txt' H. discriminate.
Qed.

End CredentialLifecycle.


Lemma get_google_creds_cached_valid_witness :
  exists w1 w2,
    get_google_creds (Ref.vendor Sample.account) default_valves true
      (Ref.world (Some "fresh")) = (Ret (Some Ref.fresh_creds), w1) /\
    get_google_creds (Ref.vendor Sample.account) default_valves true w1 =
      (Ret (Some Ref.fresh_creds), w2) /\
    token_file w2 = Some "fresh" /\
    network_calls (trace w2) = 0%nat /\
    removals (trace w2) = 0%nat /\
    log w2 = [].
Proof.
  apply (get_google_creds_cached_valid (Ref.vendor Sample.account) default_valves
           true (Ref.world (Some "fresh")) "fresh" Ref.fresh_creds);
    reflexivity.
Defined.

Lemma get_google_creds_retry_reauthorizes_witness :
  exists w',
    get_google_creds (Ref.vendor Sample.account) default_valves true
      (Ref.world (Some "garbage")) = (Ret (Some Ref.fresh_creds), w') /\
    token_file w' = Some "fresh".
Proof.
  destruct (proj2 (get_google_creds_retry_reauthorizes (Ref.vendor Sample.account)
                     default_valves (Ref.world (Some "garbage"))
                     (mkWorld (Some "garbage") [EvPathExists; EvLoadToken] [])
                     {| att_creds := None; att_error := Some Sample.corrupt_token |}
                     Sample.corrupt_token eq_refl eq_refl
                     (fun H => match H with eq_refl => I end))
              Ref.fresh_creds eq_refl) as (w' & Hrun & Hfile).
  exists w'. split; [exact Hrun | apply Hfile; reflexivity].
Defined.

(* ================================================================= *)
(** ** Further properties: what the vendor's answers may lack *)

Section BodyEdges.
Variable L : PyLib.

(** X5. In a multipart payload only the immediate children are looked at. A
    payload whose children are all containers or attachments, wherever the
    text may sit below them, yields the error text for the missing ["data"]
    of the container itself; a multipart payload without ["parts"] yields the
    error text for that key and not the body of the payload. *)
Theorem parse_email_body_container_only (payload mime_type : json) :
  py_getitem payload "mimeType" = Ret mime_type ->
  is_multipart mime_type = true ->
  (forall fields,
      payload = JObj fields -> lookup "parts" fields = None ->
      parse_email_body L payload = Ret "Error parsing email body: 'parts'") /\
  (forall parts children body,
      py_getitem payload "parts" = Ret parts ->
      py_iter parts = Ret children ->
      Forall not_text children ->
      py_getitem payload "body" = Ret (JObj body) ->
      lookup "data" body = None ->
      parse_email_body L payload = Ret "Error parsing email body: 'data'").
Proof.
  intros Hmt Hmulti. split.
  - intros fields -> Hparts.
    unfold parse_email_body, parse_email_body_try.
    rewrite Hmt. simpl. rewrite Hmulti. simpl. rewrite Hparts. reflexivity.
  - intros parts children body Hparts Hiter Hnone Hbody Hdata.
    unfold parse_email_body, parse_email_body_try.
    rewrite Hmt. simpl. rewrite Hmulti, Hparts. simpl. rewrite Hiter. simpl.
    rewrite (scan_parts_no_match L children Hnone). simpl.
    rewrite Hbody. simpl. rewrite Hdata. reflexivity.
Qed.
End BodyEdges.

Section EventEdges.
Variable V : Vendor.

Lemma cal_evts_loop_stops (pre : list (json * EventView)) (bad : json)
    (post : list json) (e : exn) :
  Forall well_viewed pre ->
  cal_evt_of bad = Raise e ->
  forall out, cal_evts_loop (map fst pre ++ bad :: post)%list out = Raise e.
Proof.
  intros Hpre Hbad. induction Hpre as [| iv pre [Hv Hs] _ IH]; intros out; simpl.
  - rewrite Hbad. reflexivity.
  - rewrite (cal_evt_of_view _ _ Hv Hs). simpl. apply IH.
Qed.

Lemma cal_evt_of_no_summary (fields start : list (string * json)) :
  lookup "start" fields = Some (JObj start) ->
  lookup "summary" fields = None ->
  cal_evt_of (JObj fields) = Raise (key_error "summary").
Proof.
  intros Hs Hsum. unfold cal_evt_of. simpl. rewrite Hs. simpl.
  destruct (lookup "date" start); destruct (lookup "dateTime" start); simpl;
    rewrite Hsum; reflexivity.
Qed.

Lemma cal_evt_of_no_email (fields start organizer : list (string * json))
    (summary : json) :
  lookup "start" fields = Some (JObj start) ->
  lookup "summary" fields = Some summary ->
  lookup "organizer" fields = Some (JObj organizer) ->
  lookup "email" organizer = None ->
  cal_evt_of (JObj fields) = Raise (key_error "email").
Proof.
  intros Hs Hsum Ho Hem. unfold cal_evt_of. simpl. rewrite Hs. simpl.
  destruct (lookup "date" start); destruct (lookup "dateTime" start); simpl;
    rewrite Hsum; simpl; rewrite Ho; simpl;
    destruct (lookup "displayName" organizer); simpl; rewrite Hem; reflexivity.
Qed.

(** X6. One event the program cannot read makes [get_cal_evts] fail as a
    whole, the events before it included: an event without ["summary"]
    raises [KeyError('summary')], and an event whose organizer has no
    ["email"] raises [KeyError('email')], a display name being present or
    not. *)
Theorem get_cal_evts_missing_field (calendar_id : json) (n : Z)
    (from_time : string) (w : World) (resp : json)
    (pre : list (json * EventView)) (fields start : list (string * json))
    (post : list json) :
  events_list V (record (EvEventsList calendar_id n from_time) w)
    calendar_id n from_time = Ret resp ->
  py_get resp "items" (JArr []) =
    Ret (JArr (map fst pre ++ JObj fields :: post)%list) ->
  Forall well_viewed pre ->
  lookup "start" fields = Some (JObj start) ->
  (lookup "summary" fields = None ->
   fst (get_cal_evts V calendar_id n from_time w) = Raise (key_error "summary")) /\
  (forall summary organizer,
      lookup "summary" fields = Some summary ->
      lookup "organizer" fields = Some (JObj organizer) ->
      lookup "email" organizer = None ->
      fst (get_cal_evts V calendar_id n from_time w) = Raise (key_error "email")).
Proof.
  intros Hresp Hitems Hpre Hs.
  assert (Hrun : forall e, cal_evt_of (JObj fields) = Raise e ->
            fst (get_cal_evts V calendar_id n from_time w) = Raise e).
  { intros e He. unfold get_cal_evts, call, lift, bind. rewrite Hresp, Hitems.
    simpl. now rewrite (cal_evts_loop_stops pre (JObj fields) post e Hpre He). }
  split.
  - intros Hsum. apply Hrun. now apply cal_evt_of_no_summary with (start := start).
  - intros summary organizer Hsum Ho Hem. apply Hrun.
    now apply cal_evt_of_no_email with (start := start) (organizer := organizer)
                                         (summary := summary).
Qed.
End EventEdges.

Lemma parse_email_body_container_only_witness :
  parse_email_body Ref.lib Sample.with_attachment =
    Ret "Error parsing email body: 'data'".
Proof.
  apply (proj2 (parse_email_body_container_only Ref.lib Sample.with_attachment
                  (JStr "multipart/mixed") eq_refl eq_refl)
           (JArr [JObj [("mimeType", JStr "multipart/alternative");
                        ("body", JObj [("size", JNum 0)]);
                        ("parts", JArr [Sample.part "text/plain" "aGVsbG8=";
                                        Sample.part "text/html" "PGI+aGk8L2I+"])];
                  JObj [("mimeType", JStr "application/pdf");
                        ("filename", JStr "agenda.pdf");
                        ("body", JObj [("attachmentId", JStr "a1");
                                       ("size", JNum 1024)])]])
           _ [("size", JNum 0)] eq_refl eq_refl).
  - repeat constructor; eexists; split; reflexivity.
  - reflexivity.
  - reflexivity.
Defined.

Lemma sample_titled_viewed :
  Forall well_viewed
    [(Sample.event "2025-05-28T11:59:07Z" "Stand-up" "C",
      Sample.view "2025-05-28T11:59:07Z" "Stand-up" "C")].
Proof.
  repeat (apply Forall_cons || apply Forall_nil).
  split; [| reflexivity].
  unfold event_view. simpl. eexists. eexists. repeat split.
Qed.

Lemma get_cal_evts_missing_field_witness :
  fst (get_cal_evts (Ref.vendor Sample.untitled_account) (JStr "C") 5
         "2025-05-28T10:59:07.000000Z" (Ref.world None)) =
    Raise (key_error "summary").
Proof.
  apply (proj1 (get_cal_evts_missing_field (Ref.vendor Sample.untitled_account)
                  (JStr "C") 5 "2025-05-28T10:59:07.000000Z" (Ref.world None)
                  (JObj [("items",
                          JArr [Sample.event "2025-05-28T11:59:07Z" "Stand-up" "C";
                                JObj Sample.untitled_fields])])
                  [(Sample.event "2025-05-28T11:59:07Z" "Stand-up" "C",
                    Sample.view "2025-05-28T11:59:07Z" "Stand-up" "C")]
                  Sample.untitled_fields
                  [("dateTime", JStr "2025-05-28T15:59:07Z")] []
                  eq_refl eq_refl sample_titled_viewed eq_refl)).
  reflexivity.
Defined.

(* ================================================================= *)
(** ** Further properties: the status messages *)

Lemma statuses_app (t1 t2 : list event) :
  statuses (t1 ++ t2)%list = (statuses t1 ++ statuses t2)%list.
Proof. apply flat_map_app. Qed.

Lemma silent_ret {A} (a : A) : silent (ret a).
Proof. intros w r w' [= <- <-]. reflexivity. Qed.

Lemma silent_lift {A} (x : result A) : silent (lift x).
Proof. intros w r w' [= <- <-]. reflexivity. Qed.

Lemma silent_bind {A B} (m : M A) (k : A -> M B) :
  silent m -> (forall a, silent (k a)) -> silent (bind m k).
Proof.
  intros Hm Hk w r w'. unfold bind.
  destruct (m w) as [[a | e] w1] eqn:E; intros H.
  - rewrite (Hk a _ _ _ H). exact (Hm _ _ _ E).
  - inversion H; subst. exact (Hm _ _ _ E).
Qed.

Lemma silent_call {A} (ev : event) (answer : World -> result A) :
  statuses [ev] = [] -> silent (call ev answer).
Proof.
  intros Hev w r w' [= <- <-]. simpl. rewrite statuses_app, Hev.
  apply app_nil_r.
Qed.

Lemma silent_logger (level : log_level) (msg : string) : silent (logger level msg).
Proof. intros w r w' [= <- <-]. reflexivity. Qed.

Lemma silent_try_except {A} (body : M A) (catches : exn -> bool)
    (handler : exn -> M A) :
  silent body -> (forall e, silent (handler e)) ->
  silent (try_except body catches handler).
Proof.
  intros Hb Hh w r w'. unfold try_except.
  destruct (body w) as [[a | e] w1] eqn:E.
  - intros [= <- <-]. exact (Hb _ _ _ E).
  - destruct (catches e).
    + intros H. rewrite (Hh e _ _ _ H). exact (Hb _ _ _ E).
    + intros [= <- <-]. exact (Hb _ _ _ E).
Qed.

(** Goes through a computation built from the steps above. *)
Ltac silence :=
  repeat first
    [ apply silent_ret | apply silent_lift | apply silent_logger
    | apply silent_call; reflexivity
    | apply silent_bind; [| intros ?]
    | apply silent_try_except; [| intros ?]
    | progress intros ].

Section Status.
Variables (L : PyLib) (V : Vendor) (valves : Valves).

Lemma silent_path_exists : silent path_exists.
Proof.
  intros w r w' [= <- <-]. simpl. rewrite statuses_app. apply app_nil_r.
Qed.

Lemma silent_persist (c : Credentials) : silent (persist V c).
Proof.
  unfold persist. apply silent_bind.
  - intros w r w' [= <- <-]. simpl. rewrite statuses_app. apply app_nil_r.
  - intros _. apply silent_bind.
    + intros w r w' [= <- <-]. reflexivity.
    + intros content w r w' [= <- <-]. simpl. rewrite statuses_app.
      apply app_nil_r.
Qed.

Lemma silent_load_cached : silent (load_cached V).
Proof.
  unfold load_cached. apply silent_bind; [apply silent_path_exists |].
  intros [|]; silence.
Qed.

Lemma silent_renew (creds : option Credentials) : silent (renew V valves creds).
Proof.
  unfold renew. destruct creds as [c |];
    [destruct (can_refresh (Some c)) |]; apply silent_call; reflexivity.
Qed.

Lemma acquire_statuses (w w1 : World) (a : attempt) :
  acquire V valves w = (a, w1) -> statuses (trace w1) = statuses (trace w).
Proof.
  unfold acquire.
  destruct (load_cached V w) as [[creds | e] wa] eqn:E1.
  - pose proof (silent_load_cached _ _ _ E1) as H1.
    destruct (needs_renewal creds).
    + destruct (renew V valves creds wa) as [[c | e] wb] eqn:E2.
      * pose proof (silent_renew _ _ _ _ E2) as H2.
        destruct (persist V c wb) as [[u | e] wc] eqn:E3;
          pose proof (silent_persist _ _ _ _ E3) as H3;
          intros [= <- <-]; congruence.
      * pose proof (silent_renew _ _ _ _ E2) as H2.
        intros [= <- <-]. congruence.
    + intros [= <- <-]. exact H1.
  - pose proof (silent_load_cached _ _ _ E1) as H1.
    intros [= <- <-]. exact H1.
Qed.

Lemma silent_os_remove_token : silent os_remove_token.
Proof.
  intros w r w'. unfold os_remove_token, record. simpl.
  destruct (token_file w); intros [= <- <-]; simpl;
    rewrite statuses_app; apply app_nil_r.
Qed.

Lemma silent_get_google_creds_from (retries : nat) :
  silent (get_google_creds_from V valves retries).
Proof.
  induction retries as [| retries IH]; intros w r w'; simpl;
    destruct (acquire V valves w) as [a w1] eqn:Ha;
    pose proof (acquire_statuses _ _ _ Ha) as H1;
    destruct (att_error a) as [error |].
  - intros H. rewrite <- H1. revert H. apply silent_bind; silence.
  - intros [= <- <-]. exact H1.
  - intros H. rewrite <- H1. revert H.
    apply silent_bind; [apply silent_logger | intros _].
    apply silent_bind; [apply silent_logger | intros _].
    apply silent_bind; [apply silent_os_remove_token | intros _].
    exact IH.
  - intros [= <- <-]. exact H1.
Qed.

Lemma silent_get_google_creds (retry : bool) :
  silent (get_google_creds V valves retry).
Proof. apply silent_get_google_creds_from. Qed.

Lemma silent_emails_loop (messages : list json) :
  forall out, silent (emails_loop L V messages out).
Proof.
  induction messages as [| msg rest IH]; intros out; simpl.
  - apply silent_ret.
  - silence. apply IH.
Qed.

Lemma silent_user_emails_try (count : Z) (label_id : string) :
  silent (user_emails_try L V valves count label_id).
Proof.
  unfold user_emails_try.
  apply silent_bind; [apply silent_get_google_creds | intros creds].
  silence. destruct (py_truthy _); silence. apply silent_emails_loop.
Qed.

Lemma silent_email_content_try (message_id : string) :
  silent (email_content_try L V valves message_id).
Proof.
  unfold email_content_try.
  apply silent_bind; [apply silent_get_google_creds | intros creds]. silence.
Qed.

Lemma silent_create_draft_try (to subject body : string) :
  silent (create_draft_try L V valves to subject body).
Proof.
  unfold create_draft_try.
  apply silent_bind; [apply silent_get_google_creds | intros creds]. silence.
Qed.

Lemma silent_fetch_events (calendar_ids : list json) (count : Z)
    (from_time : string) :
  forall event_list, silent (fetch_events V calendar_ids count from_time event_list).
Proof.
  induction calendar_ids as [| id rest IH]; intros event_list; simpl.
  - apply silent_ret.
  - apply silent_bind; [unfold get_cal_evts; silence | intros events]. apply IH.
Qed.

Lemma silent_user_events_try (count : Z) :
  silent (user_events_try L V valves count).
Proof.
  unfold user_events_try.
  apply silent_bind; [apply silent_get_google_creds | intros creds].
  apply silent_bind; [apply silent_call; reflexivity | intros _].
  apply silent_bind; [unfold get_current_time; silence | intros from_time].
  apply silent_bind; [unfold get_calendar_ids; silence | intros ids].
  apply silent_bind; [apply silent_fetch_events | intros evs].
  silence.
Qed.


Lemma await_emitter_Ret (emitter : option Emitter) (d : string) (b : bool)
    (w w1 : World) (u : unit) :
  await_emitter emitter d b w = (Ret u, w1) ->
  statuses (trace w1) = (statuses (trace w) ++ [(d, b)])%list.
Proof.
  destruct emitter as [f |]; simpl; [| discriminate].
  unfold call. intros [= _ <-]. simpl. now rewrite statuses_app.
Qed.

Lemma silent_get_current_time : silent (get_current_time V).
Proof. unfold get_current_time. silence. Qed.

(** X7. Every public operation that returns has sent exactly two status
    messages to the host: its opening message with [done] false before
    anything else, and its closing message with [done] true at the end.
    Nothing in between sends a status. *)
Theorem public_operations_status_on_return (emitter : option Emitter)
    (w w' : World) (s : string) :
  (forall count label_id,
      get_user_emails L V valves count label_id emitter w = (Ret s, w') ->
      statuses (trace w') =
        (statuses (trace w) ++
         [("Fetching user emails...", false); ("Fetched user emails!", true)])%list) /\
  (forall message_id,
      get_email_content L V valves message_id emitter w = (Ret s, w') ->
      statuses (trace w') =
        (statuses (trace w) ++
         [("Fetching email content...", false); ("Fetched email content!", true)])%list) /\
  (forall to subject body,
      gmail_create_draft L V valves to subject body emitter w = (Ret s, w') ->
      statuses (trace w') =
        (statuses (trace w) ++
         [("Creating email draft...", false); ("Email draft created!", true)])%list) /\
  (forall count,
      get_user_events L V valves count emitter w = (Ret s, w') ->
      statuses (trace w') =
        (statuses (trace w) ++
         [("Fetching user calendar entries...", false);
          ("Fetched user calendar entries!", true)])%list).
Proof.
  repeat match goal with |- _ /\ _ => split end.
  - intros count label_id H. unfold get_user_emails in H.
    do 6 inv_bind H. unfold ret in H. inversion H; subst; clear H.
    apply await_emitter_Ret in Hm, Hm4.
    apply silent_get_current_time in Hm0. apply silent_logger in Hm1, Hm3.
    apply (silent_try_except _ _ _ (silent_user_emails_try _ _)) in Hm2;
      [| intros e; apply silent_ret].
    rewrite Hm4, Hm3, Hm2, Hm1, Hm0, Hm. now rewrite <- app_assoc.
  - intros message_id H. unfold get_email_content in H.
    do 6 inv_bind H. unfold ret in H. inversion H; subst; clear H.
    apply await_emitter_Ret in Hm, Hm4.
    apply silent_get_current_time in Hm0. apply silent_logger in Hm1, Hm3.
    apply (silent_try_except _ _ _ (silent_email_content_try _)) in Hm2;
      [| intros e; apply silent_ret].
    rewrite Hm4, Hm3, Hm2, Hm1, Hm0, Hm. now rewrite <- app_assoc.
  - intros to subject body H. unfold gmail_create_draft in H.
    do 5 inv_bind H. unfold ret in H. inversion H; subst; clear H.
    apply await_emitter_Ret in Hm0, Hm3.
    apply silent_logger in Hm, Hm2.
    apply (silent_try_except _ _ _ (silent_create_draft_try _ _ _)) in Hm1;
      [| intros e; apply silent_ret].
    rewrite Hm3, Hm2, Hm1, Hm0, Hm. now rewrite <- app_assoc.
  - intros count H. unfold get_user_events in H.
    do 6 inv_bind H. unfold ret in H. inversion H; subst; clear H.
    apply await_emitter_Ret in Hm, Hm4.
    apply silent_get_current_time in Hm0. apply silent_logger in Hm1, Hm3.
    apply (silent_try_except _ _ _ (silent_user_events_try _)) in Hm2;
      [| intros e; apply silent_ret].
    rewrite Hm4, Hm3, Hm2, Hm1, Hm0, Hm. now rewrite <- app_assoc.
Qed.


Lemma try_except_Raise {A} (body : M A) (catches : exn -> bool)
    (handler : exn -> M A) (w w' : World) (e : exn) :
  (forall e0 w0 r w1, handler e0 w0 = (r, w1) -> exists a, r = Ret a) ->
  try_except body catches handler w = (Raise e, w') ->
  body w = (Raise e, w') /\ catches e = false.
Proof.
  intros Hh. unfold try_except.
  destruct (body w) as [[a | e0] w1] eqn:E; [discriminate |].
  destruct (catches e0) eqn:C.
  - intros H. destruct (Hh _ _ _ _ H) as [a Ha]. discriminate.
  - intros [= <- <-]. auto.
Qed.

Variable emit : Emitter.
Hypothesis emit_ok : forall w d b, emit w d b = Ret tt.

Ltac escaped H body_silent :=
  simpl in H; rewrite emit_ok in H;
  match type of H with
  | context [try_except ?b ?c ?h ?w0] =>
      let E := fresh "E" in
      destruct (try_except b c h w0) as [[out | e0] w1] eqn:E;
      [ simpl in H; rewrite emit_ok in H; discriminate
      | inversion H; subst; clear H;
        apply try_except_Raise in E;
        [ destruct E as [E Hc]; split; [exact Hc |];
          rewrite (body_silent _ _ _ E); simpl;
          rewrite ?statuses_app; simpl; rewrite ?app_nil_r; reflexivity
        | intros ? ? ? ? [= <- <-]; eauto ] ]
  end.

(** X8. With a host that accepts every status, an exception that leaves a
    public operation is never an [HttpError], those being rendered as text,
    and when it leaves, the host has been sent the opening status and never
    the closing one. *)
Theorem public_operations_status_on_raise (w w' : World) (e : exn) :
  (forall count label_id,
      get_user_emails L V valves count label_id (Some emit) w = (Raise e, w') ->
      is_HttpError e = false /\
      statuses (trace w') =
        (statuses (trace w) ++ [("Fetching user emails...", false)])%list) /\
  (forall message_id,
      get_email_content L V valves message_id (Some emit) w = (Raise e, w') ->
      is_HttpError e = false /\
      statuses (trace w') =
        (statuses (trace w) ++ [("Fetching email content...", false)])%list) /\
  (forall to subject body,
      gmail_create_draft L V valves to subject body (Some emit) w = (Raise e, w') ->
      is_HttpError e = false /\
      statuses (trace w') =
        (statuses (trace w) ++ [("Creating email draft...", false)])%list) /\
  (forall count,
      get_user_events L V valves count (Some emit) w = (Raise e, w') ->
      is_HttpError e = false /\
      statuses (trace w') =
        (statuses (trace w) ++ [("Fetching user calendar entries...", false)])%list).
Proof.
  repeat match goal with |- _ /\ _ => split end.
  - intros count label_id H.
    unfold get_user_emails, await_emitter, get_current_time, call, logger,
      bind, ret in H.
    escaped H (silent_user_emails_try
                 (effective_count count (default_email_entries valves)) label_id).
  - intros message_id H.
    unfold get_email_content, await_emitter, get_current_time, call, logger,
      bind, ret in H.
    escaped H (silent_email_content_try message_id).
  - intros to subject body H.
    unfold gmail_create_draft, await_emitter, call, logger, bind, ret in H.
    escaped H (silent_create_draft_try to subject body).
  - intros count H.
    unfold get_user_events, await_emitter, get_current_time, call, logger,
      bind, ret in H.
    escaped H (silent_user_events_try
                 (effective_count count (default_calendar_entries valves))).
Qed.

End Status.

Lemma public_operations_status_on_return_witness :
  exists s w',
    get_user_events Ref.lib (Ref.vendor Sample.account) default_valves 3
      (Some Ref.emitter) (Ref.world (Some "fresh")) = (Ret s, w') /\
    statuses (trace w') =
      [("Fetching user calendar entries...", false);
       ("Fetched user calendar entries!", true)].
Proof.
  eexists. eexists. split.
  - vm_compute. reflexivity.
  - eapply (proj2 (proj2 (proj2
              (public_operations_status_on_return Ref.lib
                 (Ref.vendor Sample.account) default_valves (Some Ref.emitter)
                 (Ref.world (Some "fresh")) _ _))) 3%Z).
    vm_compute. reflexivity.
Defined.

Lemma public_operations_status_on_raise_witness :
  exists w',
    get_user_events Ref.lib (Ref.vendor Sample.account) default_valves 4
      (Some Ref.emitter) (Ref.world (Some "fresh")) = (Raise index_error, w') /\
    is_HttpError index_error = false /\
    statuses (trace w') = [("Fetching user calendar entries...", false)].
Proof.
  eexists. split.
  - vm_compute. reflexivity.
  - eapply (proj2 (proj2 (proj2
              (public_operations_status_on_raise Ref.lib
                 (Ref.vendor Sample.account) default_valves Ref.emitter
                 (fun _ _ _ => eq_refl) (Ref.world (Some "fresh")) _ _))) 4%Z).
    vm_compute. reflexivity.
Defined.

(* ================================================================= *)
(** ** Further properties: the Gmail requests *)

Lemma gmail_requests_app (t1 t2 : list event) :
  gmail_requests (t1 ++ t2)%list = (gmail_requests t1 ++ gmail_requests t2)%list.
Proof. apply filter_app. Qed.

Section GmailRun.
Variables (L : PyLib) (V : Vendor) (valves : Valves).

Ltac no_gmail :=
  simpl; repeat rewrite gmail_requests_app; simpl;
  repeat rewrite app_nil_r; reflexivity.

(** The credential manager sends no Gmail request. *)
Lemma acquire_gmail_requests (w w1 : World) (a : attempt) :
  acquire V valves w = (a, w1) ->
  gmail_requests (trace w1) = gmail_requests (trace w).
Proof.
  unfold acquire, load_cached, path_exists, renew, persist, open_token_w,
    write_token, call, bind, ret, record.
  destruct w as [tf tr lg]. simpl.
  destruct tf as [content |]; simpl.
  - destruct (from_authorized_user_file V _ content) as [c | e]; simpl.
    + destruct (cred_valid c); simpl.
      * intros [= <- <-]. no_gmail.
      * destruct (cred_expired c && has_refresh_token c); simpl.
        -- destruct (refresh V _ c) as [c' | e]; simpl.
           ++ destruct (to_json V _ c') as [txt | e]; simpl;
                intros [= <- <-]; no_gmail.
           ++ intros [= <- <-]. no_gmail.
        -- destruct (run_consent_flow V _ _) as [c' | e]; simpl.
           ++ destruct (to_json V _ c') as [txt | e]; simpl;
                intros [= <- <-]; no_gmail.
           ++ intros [= <- <-]. no_gmail.
    + intros [= <- <-]. no_gmail.
  - destruct (run_consent_flow V _ _) as [c' | e]; simpl.
    + destruct (to_json V _ c') as [txt | e]; simpl;
        intros [= <- <-]; no_gmail.
    + intros [= <- <-]. no_gmail.
Qed.

Lemma get_google_creds_gmail_requests (retries : nat) :
  forall w r w',
    get_google_creds_from V valves retries w = (r, w') ->
    gmail_requests (trace w') = gmail_requests (trace w).
Proof.
  induction retries as [| retries IH]; intros w r w'; simpl;
    destruct (acquire V valves w) as [a w1] eqn:Ha;
    pose proof (acquire_gmail_requests _ _ _ Ha) as Hreq;
    destruct (att_error a) as [error |].
  - unfold bind, logger, ret. simpl. intros [= <- <-]. exact Hreq.
  - intros [= <- <-]. exact Hreq.
  - unfold bind, logger, os_remove_token, record. simpl.
    destruct (token_file w1).
    + intros H. apply IH in H. simpl in H. rewrite H.
      rewrite gmail_requests_app, Hreq. simpl. now rewrite app_nil_r.
    + intros [= <- <-]. simpl.
      rewrite gmail_requests_app, Hreq. simpl. now rewrite app_nil_r.
  - intros [= <- <-]. exact Hreq.
Qed.

Variable emit : Emitter.
Hypothesis emit_ok : forall w d b, emit w d b = Ret tt.
Hypothesis creds_ok :
  forall w, exists c w', get_google_creds V valves true w = (Ret c, w').
Hypothesis build_ok : forall w c, build V w "gmail" c = Ret tt.

(** The steps every Gmail operation starts its [try] block with. *)
Lemma gmail_service_run {A} (k : M A) (w0 : World) :
  exists c w1,
    (creds <- get_google_creds V valves true ;;
     call (EvBuild "gmail" creds) (fun w => build V w "gmail" creds) ;;; k) w0 =
      k (record (EvBuild "gmail" c) w1) /\
    gmail_requests (trace (record (EvBuild "gmail" c) w1)) =
      gmail_requests (trace w0).
Proof.
  destruct (creds_ok w0) as (c & w1 & Hc).
  exists c, w1. split.
  - rewrite (bind_step _ _ _ _ _ Hc). unfold bind at 1. unfold call at 1.
    now rewrite build_ok.
  - simpl. rewrite gmail_requests_app. simpl. rewrite app_nil_r.
    exact (get_google_creds_gmail_requests 1 _ _ _ Hc).
Qed.


Lemma create_draft_try_run (to subject body : string) (w0 : World) :
  (forall message,
      email_as_bytes L body to subject = Ret message ->
      (forall w1 raw, exists resp, drafts_create V w1 raw = Ret resp) ->
      exists w1,
        create_draft_try L V valves to subject body w0 =
          (Ret "Draft message created!", w1) /\
        gmail_requests (trace w1) =
          (gmail_requests (trace w0) ++
           [EvDraftsCreate (urlsafe_b64encode L message)])%list) /\
  (forall e,
      email_as_bytes L body to subject = Raise e ->
      exists w1,
        create_draft_try L V valves to subject body w0 = (Raise e, w1) /\
        gmail_requests (trace w1) = gmail_requests (trace w0)).
Proof.
  unfold create_draft_try.
  match goal with
  | |- context [bind _ (fun creds => bind _ (fun _ => ?k))] =>
      destruct (gmail_service_run k w0) as (c & w1 & Hrun & Hreq)
  end.
  split.
  - intros message Hmsg Hdrafts. rewrite Hrun.
    unfold bind, lift, call, ret. rewrite Hmsg.
    match goal with
    | |- context [drafts_create V ?wd ?raw] =>
        destruct (Hdrafts wd raw) as [resp ->]
    end.
    eexists. split; [reflexivity |].
    simpl. rewrite gmail_requests_app. simpl in Hreq. now rewrite Hreq.
  - intros e Hmsg. rewrite Hrun.
    unfold bind, lift. rewrite Hmsg.
    eexists. split; [reflexivity | exact Hreq].
Qed.

(** X9. A draft is submitted once, and it is the URL-safe base64 text of the
    message the email library built from the body, the recipient and the
    subject; no other Gmail request is sent. When the library cannot build
    the message, its error leaves the operation and no draft is submitted. *)
Theorem gmail_create_draft_submits (to subject body : string) (w : World) :
  (forall message,
      email_as_bytes L body to subject = Ret message ->
      (forall w1 raw, exists resp, drafts_create V w1 raw = Ret resp) ->
      exists w',
        gmail_create_draft L V valves to subject body (Some emit) w =
          (Ret "Draft message created!", w') /\
        gmail_requests (trace w') =
          (gmail_requests (trace w) ++
           [EvDraftsCreate (urlsafe_b64encode L message)])%list) /\
  (forall e,
      email_as_bytes L body to subject = Raise e ->
      is_HttpError e = false ->
      exists w',
        gmail_create_draft L V valves to subject body (Some emit) w =
          (Raise e, w') /\
        gmail_requests (trace w') = gmail_requests (trace w)).
Proof.
  split.
  - intros message Hmsg Hdrafts.
    unfold gmail_create_draft, await_emitter, call, logger, try_except, bind, ret.
    simpl. rewrite emit_ok.
    match goal with
    | |- context [create_draft_try L V valves to subject body ?w0] =>
        destruct (proj1 (create_draft_try_run to subject body w0) message Hmsg Hdrafts)
          as (w1 & -> & Hreq)
    end.
    rewrite emit_ok. eexists. split; [reflexivity |].
    simpl. rewrite gmail_requests_app, Hreq. simpl.
    rewrite gmail_requests_app. simpl. now rewrite !app_nil_r.
  - intros e Hmsg Hhttp.
    unfold gmail_create_draft, await_emitter, call, logger, try_except, bind, ret.
    simpl. rewrite emit_ok.
    match goal with
    | |- context [create_draft_try L V valves to subject body ?w0] =>
        destruct (proj2 (create_draft_try_run to subject body w0) e Hmsg)
          as (w1 & -> & Hreq)
    end.
    rewrite Hhttp. eexists. split; [reflexivity |].
    rewrite Hreq. simpl. rewrite gmail_requests_app. simpl. now rewrite app_nil_r.
Qed.


(** [parse_email_body] returns: what it returns is [body_text]. *)
Lemma parse_email_body_text (payload : json) :
  parse_email_body L payload = Ret (body_text L payload).
Proof.
  unfold body_text, parse_email_body.
  destruct (parse_email_body_try L payload) as [text | err]; [reflexivity |].
  destruct (is_ValueError err); [| destruct (is_KeyError err)]; reflexivity.
Qed.

Lemma mail_fields_delivered (m : Message) :
  delivered V m ->
  mail_fields L (msg_stub m) (msg_mail m) (body_text L (msg_payload m)) =
    Ret (email_record L m).
Proof.
  intros (Hid & _ & Hp & Hh & Hwf & Hsn & Hlab).
  unfold mail_fields. rewrite Hp. simpl. rewrite Hh. simpl.
  rewrite !(get_header_value_lookup _ _ _ Hwf). simpl.
  rewrite Hsn. simpl. rewrite Hlab. simpl. rewrite Hid. reflexivity.
Qed.

(** The loop over the listing fetches each message and appends its record. *)
Lemma emails_loop_run (ms : list Message) :
  Forall (delivered V) ms ->
  forall out w0,
    exists w1,
      emails_loop L V (map msg_stub ms) out w0 =
        (Ret (out ++ concat_all
                       (map (fun m => MAIL_FORMAT_format (email_record L m)) ms)),
         w1) /\
      gmail_requests (trace w1) =
        (gmail_requests (trace w0) ++
         map (fun m => EvMessagesGet (msg_id m)) ms)%list.
Proof.
  induction 1 as [| m ms Hm _ IH]; intros out w0; simpl.
  - exists w0. unfold ret. now rewrite str_app_nil_r, app_nil_r.
  - pose proof (mail_fields_delivered m Hm) as Hfields.
    destruct Hm as (Hid & Hget & Hp & _).
    unfold bind at 1. unfold lift at 1. rewrite Hid.
    unfold bind at 1. unfold call at 1. rewrite Hget.
    unfold bind at 1. unfold lift at 1. rewrite Hp.
    unfold bind at 1. unfold lift at 1. rewrite parse_email_body_text.
    unfold bind at 1. unfold lift at 1. rewrite Hfields.
    destruct (IH (out ++ MAIL_FORMAT_format (email_record L m))
                (record (EvMessagesGet (msg_id m)) w0)) as (w1 & -> & Hreq).
    exists w1. split.
    + now rewrite str_app_assoc.
    + rewrite Hreq. simpl. rewrite gmail_requests_app. simpl.
      now rewrite <- app_assoc.
Qed.

Lemma email_content_try_run (message_id : string) (mail payload : json)
    (w0 : World) :
  (forall w1, messages_get V w1 (JStr message_id) = Ret mail) ->
  py_getitem mail "payload" = Ret payload ->
  exists w1,
    email_content_try L V valves message_id w0 =
      (Ret (body_text L payload), w1) /\
    gmail_requests (trace w1) =
      (gmail_requests (trace w0) ++ [EvMessagesGet (JStr message_id)])%list.
Proof.
  intros Hget Hp. unfold email_content_try.
  match goal with
  | |- context [bind _ (fun creds => bind _ (fun _ => ?k))] =>
      destruct (gmail_service_run k w0) as (c & w1 & Hrun & Hreq)
  end.
  rewrite Hrun. clear Hrun.
  unfold bind at 1. unfold call at 1. rewrite Hget.
  unfold bind at 1. unfold lift at 1. rewrite Hp.
  unfold lift. rewrite parse_email_body_text.
  eexists. split; [reflexivity |].
  simpl. rewrite gmail_requests_app. simpl in Hreq. now rewrite Hreq.
Qed.

(** X11. For a message the vendor returns, [get_email_content] sends one
    Gmail request, the fetch of that message, and returns the envelope with
    the text of the message's payload in a CDATA section: the body, or the
    text of the error met while decoding it. *)
Theorem get_email_content_body (message_id : string) (mail payload : json)
    (w : World) :
  (forall w1, messages_get V w1 (JStr message_id) = Ret mail) ->
  py_getitem mail "payload" = Ret payload ->
  exists description w',
    get_email_content L V valves message_id (Some emit) w =
      (Ret (MAIN_FORMAT_format description
              ("<![CDATA[" ++ body_text L payload ++ "]]>")), w') /\
    gmail_requests (trace w') =
      (gmail_requests (trace w) ++ [EvMessagesGet (JStr message_id)])%list.
Proof.
  intros Hget Hp.
  unfold get_email_content, await_emitter, get_current_time, call, logger,
    try_except, bind, ret. simpl.
  rewrite emit_ok.
  match goal with
  | |- context [email_content_try L V valves message_id ?w0] =>
      destruct (email_content_try_run message_id mail payload w0 Hget Hp)
        as (w1 & Hrun & Hreq)
  end.
  rewrite Hrun. rewrite emit_ok.
  eexists. eexists. split; [reflexivity |].
  simpl. rewrite gmail_requests_app, Hreq. simpl.
  rewrite !gmail_requests_app. simpl. now rewrite !app_nil_r.
Qed.

Variable ms : list Message.
Variable count : Z.
Variable label_id : string.

Let n : Z := effective_count count (default_email_entries valves).

Hypothesis list_ok :
  forall w0, exists resp,
    messages_list V w0 n [label_id] = Ret resp /\
    py_get resp "messages" (JArr []) = Ret (JArr (map msg_stub ms)).

Hypothesis all_delivered : Forall (delivered V) ms.

Lemma user_emails_try_run (w0 : World) :
  exists w1,
    user_emails_try L V valves n label_id w0 = (Ret (emails_text L ms), w1) /\
    gmail_requests (trace w1) =
      (gmail_requests (trace w0) ++
       EvMessagesList n [label_id] ::
       map (fun m => EvMessagesGet (msg_id m)) ms)%list.
Proof.
  unfold user_emails_try.
  match goal with
  | |- context [bind _ (fun creds => bind _ (fun _ => ?k))] =>
      destruct (gmail_service_run k w0) as (c & w1 & Hrun & Hreq)
  end.
  rewrite Hrun. clear Hrun.
  unfold bind at 1. unfold call at 1.
  match goal with
  | |- context [messages_list V ?wl n [label_id]] =>
      destruct (list_ok wl) as (resp & -> & Hmsgs); set (wm := wl)
  end.
  unfold bind at 1. unfold lift at 1. rewrite Hmsgs.
  destruct ms as [| m rest] eqn:Ems.
  - simpl. exists wm. split; [reflexivity |].
    subst wm. simpl. rewrite gmail_requests_app. simpl in Hreq. now rewrite Hreq.
  - rewrite <- Ems in *. replace (py_truthy (JArr (map msg_stub ms))) with true
      by (rewrite Ems; reflexivity).
    unfold bind at 1. unfold lift at 1. simpl py_iter.
    destruct (emails_loop_run ms all_delivered "" wm) as (w2 & -> & Hreq2).
    exists w2. split.
    + unfold emails_text. rewrite Ems. reflexivity.
    + rewrite Hreq2. subst wm. simpl. rewrite gmail_requests_app.
      simpl in Hreq. rewrite Hreq. simpl. now rewrite <- app_assoc.
Qed.

(** X10. [get_user_emails] asks for the messages of the label once, with
    the count it was given or the configured default, then fetches each
    listed message once, in the order of the listing. Its output holds one
    [<email>] record per listed message in that order: the headers ["Date"],
    ["From"] and ["Subject"] by exact name, the unread flag set exactly when
    ["UNREAD"] is among the labels, and the text of the body. A listing with
    no messages gives the sentence ["No messages found."] and no fetch. *)
Theorem get_user_emails_lists (w : World) :
  exists description w',
    get_user_emails L V valves count label_id (Some emit) w =
      (Ret (MAIN_FORMAT_format description
              ("<emails>" ++ emails_text L ms ++ "</emails>")), w') /\
    gmail_requests (trace w') =
      (gmail_requests (trace w) ++
       EvMessagesList n [label_id] ::
       map (fun m => EvMessagesGet (msg_id m)) ms)%list.
Proof.
  unfold get_user_emails, await_emitter, get_current_time, call, logger,
    try_except, bind, ret. simpl.
  rewrite emit_ok.
  match goal with
  | |- context [user_emails_try L V valves _ label_id ?w0] =>
      destruct (user_emails_try_run w0) as (w1 & Hrun & Hreq)
  end.
  unfold n in Hrun, Hreq |- *. rewrite Hrun. rewrite emit_ok.
  eexists. eexists. split; [reflexivity |].
  simpl. rewrite gmail_requests_app, Hreq. simpl.
  rewrite !gmail_requests_app. simpl. now rewrite !app_nil_r.
Qed.

End GmailRun.

Lemma delivered_sample_message :
  delivered (Ref.vendor Sample.account) Sample.message.
Proof.
  repeat split; try reflexivity.
  simpl. repeat constructor.
Qed.

Lemma gmail_create_draft_submits_witness :
  exists message w',
    email_as_bytes Ref.lib "See you at noon." "bob@example.org" "Hi" =
      Ret message /\
    gmail_create_draft Ref.lib (Ref.vendor Sample.account) default_valves
      "bob@example.org" "Hi" "See you at noon." (Some Ref.emitter)
      (Ref.world (Some "fresh")) = (Ret "Draft message created!", w') /\
    gmail_requests (trace w') =
      [EvDraftsCreate (urlsafe_b64encode Ref.lib message)].
Proof.
  eexists.
  assert (Hmsg : email_as_bytes Ref.lib "See you at noon." "bob@example.org"
                   "Hi" = Ret ?[message]) by (vm_compute; reflexivity).
  destruct (proj1 (gmail_create_draft_submits Ref.lib
                     (Ref.vendor Sample.account) default_valves Ref.emitter
                     (fun _ _ _ => eq_refl)
                     (ref_creds_ok Sample.account default_valves eq_refl eq_refl)
                     (fun _ _ => eq_refl)
                     "bob@example.org" "Hi" "See you at noon."
                     (Ref.world (Some "fresh")))
              _ Hmsg (fun _ _ => ex_intro _ _ eq_refl))
    as (w' & Hrun & Hreq).
  exists w'. split; [exact Hmsg |]. split; [exact Hrun | exact Hreq].
Defined.

Lemma get_user_emails_lists_witness :
  exists description w',
    get_user_emails Ref.lib (Ref.vendor Sample.account) default_valves (-1)
      "INBOX" (Some Ref.emitter) (Ref.world (Some "fresh")) =
      (Ret (MAIN_FORMAT_format description
              ("<emails>" ++ emails_text Ref.lib [Sample.message] ++
               "</emails>")), w') /\
    gmail_requests (trace w') =
      [EvMessagesList 10 ["INBOX"];
       EvMessagesGet (JStr "194d1f624c165d4b")].
Proof.
  apply (get_user_emails_lists Ref.lib (Ref.vendor Sample.account)
           default_valves Ref.emitter (fun _ _ _ => eq_refl)
           (ref_creds_ok Sample.account default_valves eq_refl eq_refl)
           (fun _ _ => eq_refl) [Sample.message] (-1) "INBOX"
           (fun _ => ex_intro _ _ (conj eq_refl eq_refl))
           (Forall_cons _ delivered_sample_message (Forall_nil _))
           (Ref.world (Some "fresh"))).
Defined.

Lemma get_email_content_body_witness :
  exists description w',
    get_email_content Ref.lib (Ref.vendor Sample.account) default_valves
      "194d1f624c165d4b" (Some Ref.emitter) (Ref.world (Some "fresh")) =
      (Ret (MAIN_FORMAT_format description ("<![CDATA[" ++ "hello" ++ "]]>")),
       w') /\
    gmail_requests (trace w') = [EvMessagesGet (JStr "194d1f624c165d4b")].
Proof.
  apply (get_email_content_body Ref.lib (Ref.vendor Sample.account)
           default_valves Ref.emitter (fun _ _ _ => eq_refl)
           (ref_creds_ok Sample.account default_valves eq_refl eq_refl)
           (fun _ _ => eq_refl) "194d1f624c165d4b"
           (msg_mail Sample.message) (msg_payload Sample.message)
           (Ref.world (Some "fresh")) (fun _ => eq_refl) eq_refl).
Defined.
